(** * Catalyst backend: the heuristic prompt scorer and its callers

    A shallow embedding of the scoring code of the Catalyst backend
    (an Express server in JavaScript that exists in several near-duplicate
    copies) together with the properties its specification states.

    - JavaScript strings are sequences of UTF-16 code units: [jsstring] is
      [list N].  [String.prototype.includes] is substring search on code
      units and [.length] is the number of code units.
    - [String.prototype.toLowerCase] is a built-in of the runtime (full
      Unicode case mapping).  The scorers are written inside a section that
      takes it as a variable; [toLowerCaseAscii] is the instance used to run
      the scorers on ASCII text, where it agrees with the built-in.
    - [Math.floor(Math.random() * 10)] is the only use of the random source.
      The scorers take the value of that expression as the argument [rnd]
      (an integer of 0..9 in the running program). *)

From Stdlib Require Import ZArith NArith List Bool Lia String Ascii.
From Stdlib Require Import Floats.SpecFloat DecimalString.
Import ListNotations.

Local Open Scope Z_scope.

(** ** JavaScript strings *)

Definition codeUnit := N.
Definition jsstring := list codeUnit.

(** A string literal of the source, as code units. *)
Fixpoint str (s : string) : jsstring :=
  match s with
  | EmptyString => []
  | String c s' => N_of_ascii c :: str s'
  end.

(** [s.startsWith(p)] at position 0. *)
Fixpoint startsWith (s p : jsstring) : bool :=
  match p, s with
  | [], _ => true
  | _ :: _, [] => false
  | c :: p', d :: s' => N.eqb c d && startsWith s' p'
  end.

(** [s.includes(p)]: [p] occurs in [s] at some position. *)
Fixpoint includes (s p : jsstring) : bool :=
  match s with
  | [] => startsWith [] p
  | _ :: s' => startsWith s p || includes s' p
  end.

(** [s.length] *)
Definition jslength (s : jsstring) : Z := Z.of_nat (List.length s).

(** ASCII case folding: 'A'..'Z' go to 'a'..'z', every other code unit is
    kept.  This is what [toLowerCase] does on a string of ASCII code units. *)
Definition lowerUnitAscii (c : codeUnit) : codeUnit :=
  if (N.leb 65 c && N.leb c 90)%bool then (c + 32)%N else c.

Definition toLowerCaseAscii (s : jsstring) : jsstring := map lowerUnitAscii s.

(** ** The result of a scorer: [{ score, explanation }] *)

Record ScoreResult := mkScoreResult {
  score : Z;
  explanation : jsstring
}.

(** [Math.max(lo, Math.min(hi, x))] on integers. *)
Definition clamp (lo hi x : Z) : Z := Z.max lo (Z.min hi x).

(** The double quote character, U+0022. *)
Definition dquote : jsstring := [34%N].

(** ** Variant B: the penalty scorer (copy "BULLETPROOF v2 (with penalty)") *)

Module VariantB.
Section Scorer.

Variable toLowerCase : jsstring -> jsstring.

Definition scienceKeywords : list jsstring :=
  map str ["laboratory"; "lab"; "science"; "scientific"; "experiment";
           "research"; "chemistry"; "beaker"; "flask"; "test"; "equipment";
           "glass"; "liquid"; "container"; "vessel"]%string.

(** [promptLower.includes(labItemLower)] *)
Definition usedLabItemWord (prompt labItem : jsstring) : bool :=
  includes (toLowerCase prompt) (toLowerCase labItem).

(** [scienceKeywords.filter(word => promptLower.includes(word))] *)
Definition matchedKeywords (prompt : jsstring) : list jsstring :=
  filter (fun word => includes (toLowerCase prompt) word) scienceKeywords.

Definition scienceCount (prompt : jsstring) : Z :=
  Z.of_nat (List.length (matchedKeywords prompt)).

(** [Math.min(20, scienceCount * 4)] *)
Definition keywordBonus (count : Z) : Z := Z.min 20 (count * 4).

(** The two [if (prompt.length > ...) score += 10] statements. *)
Definition lengthBonus (prompt : jsstring) : Z :=
  (if 50 <? jslength prompt then 10 else 0) +
  (if 100 <? jslength prompt then 10 else 0).

(** The value of [score] before the random variation is added. *)
Definition subtotal (prompt : jsstring) : Z :=
  50 + keywordBonus (scienceCount prompt) + lengthBonus prompt.

(** U+274C, the cross mark that opens the penalty text. *)
Definition forbiddenExplanation (labItem : jsstring) : jsstring :=
  [10060%N] ++ str " ZERO SCORE: The prompt contains the forbidden word "
  ++ dquote ++ labItem ++ dquote
  ++ str ". According to game rules, you cannot use the lab item word in your prompt!".

Definition excellentText : jsstring :=
  str "Excellent prompt! Strong laboratory context and creative description. The AI successfully created a scientifically relevant image without using the forbidden word.".
Definition goodText : jsstring :=
  str "Good prompt! The image has some laboratory context. Adding more scientific keywords could improve the score.".
Definition creativeText : jsstring :=
  str "Creative prompt! The image may be more artistic. Try adding more laboratory-related context for a higher score.".

Definition explain (score : Z) : jsstring :=
  if 80 <=? score then excellentText
  else if 60 <=? score then goodText
  else creativeText.

Definition evaluatePrompt (rnd : Z) (prompt labItem : jsstring) : ScoreResult :=
  if usedLabItemWord prompt labItem then
    mkScoreResult 0 (forbiddenExplanation labItem)
  else
    let score := subtotal prompt in
    let score := score + (rnd - 5) in
    let score := clamp 30 100 score in
    mkScoreResult score (explain score).

End Scorer.
End VariantB.

(** ** Variant A: the mention-rewarding scorer (copy "BULLETPROOF VERSION") *)

Module VariantA.
Section Scorer.

Variable toLowerCase : jsstring -> jsstring.

Definition scienceKeywords : list jsstring :=
  map str ["laboratory"; "lab"; "science"; "scientific"; "experiment";
           "research"; "chemistry"; "beaker"; "flask"; "test"; "equipment"]%string.

(** [promptLower.includes(labItemLower)] *)
Definition mentionsLabItem (prompt labItem : jsstring) : bool :=
  includes (toLowerCase prompt) (toLowerCase labItem).

Definition matchedKeywords (prompt : jsstring) : list jsstring :=
  filter (fun word => includes (toLowerCase prompt) word) scienceKeywords.

Definition scienceCount (prompt : jsstring) : Z :=
  Z.of_nat (List.length (matchedKeywords prompt)).

(** [if (mentionsLabItem) score += 30] *)
Definition mentionBonus (prompt labItem : jsstring) : Z :=
  if mentionsLabItem prompt labItem then 30 else 0.

(** [Math.min(20, scienceCount * 5)] *)
Definition keywordBonus (count : Z) : Z := Z.min 20 (count * 5).

(** The value of [score] before the random variation is added. *)
Definition subtotal (prompt labItem : jsstring) : Z :=
  50 + mentionBonus prompt labItem + keywordBonus (scienceCount prompt).

Definition excellentText (labItem : jsstring) : jsstring :=
  str "Excellent prompt! The " ++ labItem
  ++ str " is clearly featured with strong laboratory context. The AI successfully created a scientifically relevant image.".
Definition goodText (labItem : jsstring) : jsstring :=
  str "Good prompt! The " ++ labItem
  ++ str " is present in the image. Adding more laboratory context could improve accuracy.".
Definition creativeText (labItem : jsstring) : jsstring :=
  str "The prompt is creative but may have resulted in a more artistic interpretation. The "
  ++ labItem ++ str " may not be prominently featured.".

Definition explain (labItem : jsstring) (score : Z) : jsstring :=
  if 70 <=? score then excellentText labItem
  else if 50 <=? score then goodText labItem
  else creativeText labItem.

Definition evaluatePrompt (rnd : Z) (prompt labItem : jsstring) : ScoreResult :=
  let score := subtotal prompt labItem in
  let score := score + (rnd - 5) in
  let score := clamp 0 100 score in
  mkScoreResult score (explain labItem score).

End Scorer.
End VariantA.

(** The prompt of the worked example of the specification. *)
Definition beakerPrompt : jsstring := str "a laboratory beaker with blue liquid".

(** ** JavaScript numbers

    A Number is an IEEE 754 binary64 value.  The Standard Library's
    [spec_float] with precision 53 and maximal exponent 1024 is exactly that
    format, with correctly rounded operations, and it computes. *)

Module Num.

Definition number := spec_float.

Definition add : number -> number -> number := SFadd 53 1024.
Definition sub : number -> number -> number := SFsub 53 1024.
Definition mul : number -> number -> number := SFmul 53 1024.
Definition div : number -> number -> number := SFdiv 53 1024.

(** An integer literal. *)
Definition ofZ (n : Z) : number := binary_normalize 53 1024 n 0 false.

(** A decimal literal [n/d] such as [0.3]: the double nearest to the
    quotient, which is what the correctly rounded division returns. *)
Definition decimal (n d : Z) : number := div (ofZ n) (ofZ d).

Definition zero : number := S754_zero false.

Definition isNaN (x : number) : bool :=
  match x with S754_nan => true | _ => false end.

(** ToBoolean on a Number: [NaN], [+0] and [-0] are falsy. *)
Definition truthy (x : number) : bool :=
  match x with
  | S754_nan | S754_zero _ => false
  | _ => true
  end.

(** [a >= b] *)
Definition geb (a b : number) : bool := SFleb b a.

(** [Math.round]: the nearest integer, ties towards +Infinity; the sign of
    the argument is kept when the result is zero. *)
Definition round (x : number) : number :=
  match x with
  | S754_finite s m e =>
      if 0 <=? e then x
      else
        let v := cond_Zopp s (Zpos m) in
        let n := (2 * v + 2 ^ (- e)) / 2 ^ (1 - e) in
        if n =? 0 then S754_zero s else ofZ n
  | _ => x
  end.

Definition isNegZero (x : number) : bool :=
  match x with S754_zero true => true | _ => false end.

(** [Math.min(a, b)]: NaN if either is NaN; [-0] is below [+0]. *)
Definition min (a b : number) : number :=
  if (isNaN a || isNaN b)%bool then S754_nan
  else if SFltb a b then a
  else if SFltb b a then b
  else if isNegZero a then a else b.

(** [Math.max(a, b)]: NaN if either is NaN; [+0] is above [-0]. *)
Definition max (a b : number) : number :=
  if (isNaN a || isNaN b)%bool then S754_nan
  else if SFltb a b then b
  else if SFltb b a then a
  else if isNegZero a then b else a.

End Num.

(** ** The CLIP scorers: the score derived from the classifier's answer *)

(** One element of the parsed answer, [{ label, score }].  The score is
    [None] when the element has no [score] property, or is not an object.
    A score that is there is taken to be a Number. *)
Record ClipEntry := mkClipEntry {
  label : jsstring;
  entryScore : option Num.number
}.

(** The parsed answer [result], a JSON value: an array of entries; an
    object that is not an array, with the values of its properties "0",
    "1", ... as entries (an absent key being an entry without score);
    [null]; or a number, a string or a boolean, in which an index finds
    nothing that has a score. *)
Inductive ClipResult :=
| ResultArray (entries : list ClipEntry)
| ResultObject (entries : list ClipEntry)
| ResultNull
| ResultOther.

(** What [result[0]], [result[1]], ... find. *)
Definition entriesOf (result : ClipResult) : list ClipEntry :=
  match result with
  | ResultArray entries => entries
  | ResultObject entries => entries
  | ResultNull => []
  | ResultOther => []
  end.

(** [result[i]?.score || 0], for a [result] that is not [null] *)
Definition scoreOrZero (result : ClipResult) (i : nat) : Num.number :=
  match nth_error (entriesOf result) i with
  | Some e =>
      match entryScore e with
      | Some x => if Num.truthy x then x else Num.zero
      | None => Num.zero
      end
  | None => Num.zero
  end.

(** [Math.max(0, Math.min(100, x))] *)
Definition clampNumber (x : Num.number) : Num.number :=
  Num.max Num.zero (Num.min (Num.ofZ 100) x).

(** The value is in [0,100]. *)
Definition inPercentRange (x : Num.number) : bool :=
  SFleb Num.zero x && SFleb x (Num.ofZ 100).

(** The explanation bands of the CLIP scorers. *)
Inductive ClipBand := HighConfidence | ModerateConfidence | NotVisible | Inconclusive.

Definition clipBand (score : Num.number) : ClipBand :=
  if Num.geb score (Num.ofZ 70) then HighConfidence
  else if Num.geb score (Num.ofZ 40) then ModerateConfidence
  else NotVisible.

(** The copies "FINAL FIXED VERSION v2" and "FIXED VERSION": one top score. *)
Module ClipTop.

Definition labItemScore (result : ClipResult) : Num.number := scoreOrZero result 0.
Definition unrelatedScore (result : ClipResult) : Num.number := scoreOrZero result 3.

(** [Array.isArray(result) && result.length > 0] *)
Definition isNonEmptyArray (result : ClipResult) : bool :=
  match result with
  | ResultArray (_ :: _) => true
  | _ => false
  end.

Definition score (result : ClipResult) : Num.number :=
  if isNonEmptyArray result then
    clampNumber
      (Num.round
         (Num.mul
            (Num.sub (labItemScore result)
                     (Num.mul (unrelatedScore result) (Num.decimal 3 10)))
            (Num.ofZ 100)))
  else Num.ofZ 50.

Definition band (result : ClipResult) : ClipBand :=
  if isNonEmptyArray result then clipBand (score result) else Inconclusive.

End ClipTop.

(** The copy with the Cloudinary upload: the average of three scores.
    This copy reads [result[0]] without a test of [result]: the read throws
    a TypeError when [result] is [null]. *)
Module ClipAvg.

(** [result[0]] can be read. *)
Definition readable (result : ClipResult) : bool :=
  match result with
  | ResultNull => false
  | _ => true
  end.

(** The TypeError of [result[0]] on [null]. *)
Definition readError : jsstring := str "Cannot read properties of null (reading '0')".

(** The four values read, when they can be read. *)
Definition labItemScore1 (result : ClipResult) : Num.number := scoreOrZero result 0.
Definition labItemScore2 (result : ClipResult) : Num.number := scoreOrZero result 1.
Definition labItemScore3 (result : ClipResult) : Num.number := scoreOrZero result 2.
Definition unrelatedScore (result : ClipResult) : Num.number := scoreOrZero result 4.

Definition avgLabScore (result : ClipResult) : Num.number :=
  Num.div
    (Num.add (Num.add (labItemScore1 result) (labItemScore2 result))
             (labItemScore3 result))
    (Num.ofZ 3).

(** [finalScore], or [None] when the reads throw. *)
Definition finalScore (result : ClipResult) : option Num.number :=
  if readable result then
    Some (clampNumber
            (Num.round
               (Num.mul
                  (Num.sub (avgLabScore result)
                           (Num.mul (unrelatedScore result) (Num.decimal 1 2)))
                  (Num.ofZ 100))))
  else None.

Definition band (result : ClipResult) : option ClipBand :=
  option_map clipBand (finalScore result).

End ClipAvg.

(** The score derivation as the specification words it, to be compared with
    [ClipTop.score] and [ClipAvg.finalScore]: a fixed linear weighting of
    the confidences of a list, clamped to [0,100], a missing entry counting
    as 0. *)
Module ClipSpec.

Definition confidence (entries : list ClipEntry) (i : nat) : Num.number :=
  match nth_error entries i with
  | Some e =>
      match entryScore e with
      | Some x => x
      | None => Num.zero
      end
  | None => Num.zero
  end.

(** round((result[0].score - 0.3 x unrelatedScore) x 100), clamped *)
Definition topScore (entries : list ClipEntry) : Num.number :=
  clampNumber
    (Num.round
       (Num.mul
          (Num.sub (confidence entries 0)
                   (Num.mul (Num.decimal 3 10) (confidence entries 3)))
          (Num.ofZ 100))).

(** round((avg of the three lab-item scores - 0.5 x unrelatedScore) x 100),
    clamped *)
Definition avgScore (entries : list ClipEntry) : Num.number :=
  clampNumber
    (Num.round
       (Num.mul
          (Num.sub
             (Num.div
                (Num.add (Num.add (confidence entries 0) (confidence entries 1))
                         (confidence entries 2))
                (Num.ofZ 3))
             (Num.mul (Num.decimal 1 2) (confidence entries 4)))
          (Num.ofZ 100))).

End ClipSpec.

(** A finite double: a zero, or a mantissa and an exponent in the format of
    binary64.  Every number a JSON text carries, short of an overflow to
    Infinity, is one. *)
Definition finiteDouble (x : Num.number) : bool :=
  match x with
  | S754_zero _ => true
  | S754_finite _ m e => bounded 53 1024 m e
  | _ => false
  end.

(** Every confidence of the list is a finite double. *)
Definition finiteConfidences (entries : list ClipEntry) : bool :=
  forallb (fun e => match entryScore e with
                    | Some x => finiteDouble x
                    | None => true
                    end)
          entries.

(** Two numbers that are equal, or both a zero (of either sign). *)
Definition sameUpToZeroSign (x y : Num.number) : Prop :=
  x = y \/ (Num.truthy x = false /\ Num.truthy y = false /\
            Num.isNaN x = false /\ Num.isNaN y = false).

(** An entry whose score is the decimal literal [n/d]. *)
Definition entryOf (n d : Z) : ClipEntry := mkClipEntry [] (Some (Num.decimal n d)).

(** ** The request handlers of [POST /api/generate-and-evaluate] *)

(** A value of the parsed JSON body, or [JUndefined] for a property that is
    absent.  [JObject text] stands for any object or array; [text] is what
    its conversion to a string gives ("[object Object]", the joined
    elements of an array), and [None] when that conversion throws, as for
    an object with an own property [toString] that is not a function. *)
Inductive JsValue :=
| JUndefined
| JNull
| JBool (b : bool)
| JNumber (x : Num.number)
| JString (s : jsstring)
| JObject (text : option jsstring).

(** ToBoolean: what [!v] tests. *)
Definition toBoolean (v : JsValue) : bool :=
  match v with
  | JUndefined | JNull => false
  | JBool b => b
  | JNumber x => Num.truthy x
  | JString s => match s with [] => false | _ :: _ => true end
  | JObject _ => true
  end.

(** [const { prompt, labItem, teamName } = req.body] *)
Record RequestBody := mkRequestBody {
  bodyPrompt : JsValue;
  bodyLabItem : JsValue;
  bodyTeamName : JsValue
}.

(** The JSON body of a response: [{ success: false, error }] or the
    success object. *)
Inductive ResponseBody :=
| FailureBody (error : jsstring)
| SuccessBody (imageUrl : jsstring) (score : Num.number) (explanation : jsstring)
              (teamName labItem : JsValue) (model : jsstring).

(** What a handler does that can be seen from outside the process.  The
    text of a console line is not recorded; a request to a service is
    recorded by the arguments of the function that sends it. *)
Inductive Event :=
| ConsoleLine
| ImageRequest (inputs : JsValue)
| ClipRequest (image : jsstring) (labItem : JsValue)
| Respond (status : Z) (body : ResponseBody).

(** The answer of an external service to one [fetch]: the request, or the
    reading of the body of the answer, fails with an error; the answer has
    a status that is not ok, and a text; or it is ok and has a payload. *)
Inductive FetchOutcome (A : Type) :=
| FetchRejected (message : jsstring)
| HttpNotOk (status : Z) (errorText : jsstring)
| HttpOk (payload : A).
Arguments FetchRejected {A} message.
Arguments HttpNotOk {A} status errorText.
Arguments HttpOk {A} payload.

(** The services and the random source a handler run meets. *)
Record World := mkWorld {
  imageService : JsValue -> FetchOutcome jsstring;
  clipService : jsstring -> JsValue -> FetchOutcome ClipResult;
  randomDraw : Z
}.

(** A computation leaves a trace of events and returns, or throws an error
    with a message. *)
Inductive Outcome (A : Type) :=
| Returned (a : A)
| Thrown (message : jsstring).
Arguments Returned {A} a.
Arguments Thrown {A} message.

Definition Eff (A : Type) : Type := list Event * Outcome A.

Definition ret {A} (a : A) : Eff A := ([], Returned a).
Definition throw {A} (message : jsstring) : Eff A := ([], Thrown message).
Definition emit (e : Event) : Eff unit := ([e], Returned tt).

Definition bind {A B} (m : Eff A) (k : A -> Eff B) : Eff B :=
  match m with
  | (t, Returned a) => let (t', r) := k a in (t ++ t', r)
  | (t, Thrown message) => (t, Thrown message)
  end.

(** [try { m } catch (error) { h error.message }] *)
Definition tryCatch {A} (m : Eff A) (h : jsstring -> Eff A) : Eff A :=
  match m with
  | (t, Returned a) => (t, Returned a)
  | (t, Thrown message) => let (t', r) := h message in (t ++ t', r)
  end.

Notation "x <- m ;; k" := (bind m (fun x => k))
  (at level 61, m at next level, right associativity).
Notation "m ;;; k" := (bind m (fun _ => k))
  (at level 61, right associativity).

Definition trace {A} (m : Eff A) : list Event := fst m.

(** [n] calls of [console.log] or [console.error] in a row, on texts that
    hold no request field. *)
Fixpoint logs (n : nat) : Eff unit :=
  match n with
  | O => ret tt
  | S n' => emit ConsoleLine ;;; logs n'
  end.

(** [message || fallback] *)
Definition orElse (message fallback : jsstring) : jsstring :=
  match message with [] => fallback | _ :: _ => message end.

Definition isExternalCall (e : Event) : bool :=
  match e with
  | ImageRequest _ | ClipRequest _ _ => true
  | _ => false
  end.

Definition isResponse (e : Event) : bool :=
  match e with Respond _ _ => true | _ => false end.

Definition isConsoleLine (e : Event) : bool :=
  match e with ConsoleLine => true | _ => false end.

Definition missingFields (body : RequestBody) : bool :=
  negb (toBoolean (bodyPrompt body)) || negb (toBoolean (bodyLabItem body))
  || negb (toBoolean (bodyTeamName body)).

Definition dataUrl (imageBase64 : jsstring) : jsstring :=
  str "data:image/png;base64," ++ imageBase64.

(** The message of the TypeError of a conversion to a string that fails. *)
Definition conversionError : jsstring := str "Cannot convert object to primitive value".

(** ToString, the conversion a template literal applies to a value.  The
    text of a number is given by the runtime, as [numberToString]. *)
Definition ToString (numberToString : Num.number -> jsstring) (v : JsValue)
  : Outcome jsstring :=
  match v with
  | JUndefined => Returned (str "undefined")
  | JNull => Returned (str "null")
  | JBool true => Returned (str "true")
  | JBool false => Returned (str "false")
  | JNumber x => Returned (numberToString x)
  | JString s => Returned s
  | JObject (Some text) => Returned text
  | JObject None => Thrown conversionError
  end.

(** The conversion of the value to a string does not throw. *)
Definition converts (v : JsValue) : bool :=
  match v with
  | JObject None => false
  | _ => true
  end.

(** The three fields of the body convert to strings. *)
Definition fieldsConvert (body : RequestBody) : bool :=
  converts (bodyTeamName body) && converts (bodyPrompt body)
  && converts (bodyLabItem body).

(** [`${v}`] inside a handler *)
Definition template (numberToString : Num.number -> jsstring) (v : JsValue)
  : Eff jsstring :=
  ([], ToString numberToString v).

(** [console.log(`... ${v} ...`)]: the text is built, then written. *)
Definition logTemplate (numberToString : Num.number -> jsstring) (v : JsValue)
  : Eff unit :=
  _ <- template numberToString v ;; emit ConsoleLine.

(** [`${response.status}`] *)
Definition statusText (numberToString : Num.number -> jsstring) (status : Z)
  : jsstring :=
  numberToString (Num.ofZ status).

(** The texts of the copies "FINAL FIXED VERSION v2" and "FIXED VERSION",
    by band; [percent] is [`${Math.round(labItemScore * 100)}`]. *)
Definition clipExplanation (band : ClipBand) (labItem percent : jsstring) : jsstring :=
  match band with
  | HighConfidence =>
      str "The " ++ labItem
      ++ str " appears to be prominently featured in the image with high confidence ("
      ++ percent
      ++ str "%). The AI model recognizes clear laboratory equipment characteristics."
  | ModerateConfidence =>
      str "The " ++ labItem
      ++ str " may be present in the image with moderate confidence ("
      ++ percent
      ++ str "%). Some laboratory equipment features are detected but not prominently featured."
  | NotVisible =>
      str "The " ++ labItem
      ++ str " is not clearly visible or present in the image (confidence: "
      ++ percent
      ++ str "%). The image may be more artistic or abstract rather than showing realistic laboratory equipment."
  | Inconclusive =>
      str "AI evaluation completed with moderate confidence. The " ++ labItem
      ++ str " may be present but results are inconclusive."
  end.

(** *** Copy "FINAL FIXED VERSION v2": Stable Diffusion, then CLIP *)

Module ClipCopy.
Section Run.

Variable numberToString : Num.number -> jsstring.
Variable world : World.

Definition generateImage (prompt : JsValue) : Eff jsstring :=
  emit ConsoleLine ;;;
  emit (ImageRequest prompt) ;;;
  match imageService world prompt with
  | FetchRejected message => throw message
  | HttpNotOk status errorText =>
      throw (str "Image generation failed: " ++ statusText numberToString status
             ++ str " - " ++ errorText)
  | HttpOk base64 => emit ConsoleLine ;;; ret base64
  end.

(** [`${Math.round(labItemScore * 100)}`] *)
Definition percentText (labItemScore : Num.number) : jsstring :=
  numberToString (Num.round (Num.mul labItemScore (Num.ofZ 100))).

(** The explanation, with the text of the lab item. *)
Definition explain (labItem : jsstring) (result : ClipResult) : jsstring :=
  clipExplanation (ClipTop.band result) labItem
    (percentText (ClipTop.labItemScore result)).

(** The candidate labels, which hold the text of the lab item, are built
    before the request is sent. *)
Definition evaluateWithCLIP (imageBase64 : jsstring) (labItem : JsValue)
  : Eff (Num.number * jsstring) :=
  emit ConsoleLine ;;;
  labItemText <- template numberToString labItem ;;
  emit (ClipRequest imageBase64 labItem) ;;;
  match clipService world imageBase64 labItem with
  | FetchRejected message => throw message
  | HttpNotOk status errorText =>
      emit ConsoleLine ;;;
      throw (str "CLIP evaluation failed: " ++ statusText numberToString status)
  | HttpOk result =>
      emit ConsoleLine ;;;
      emit ConsoleLine ;;;
      ret (ClipTop.score result, explain labItemText result)
  end.

Definition handler (body : RequestBody) : Eff unit :=
  let prompt := bodyPrompt body in
  let labItem := bodyLabItem body in
  let teamName := bodyTeamName body in
  tryCatch
    (if missingFields body then
       emit (Respond 400
               (FailureBody (str "Missing required fields: prompt, labItem, or teamName")))
     else
       logTemplate numberToString teamName ;;;
       logTemplate numberToString prompt ;;;
       logTemplate numberToString labItem ;;;
       emit ConsoleLine ;;;
       imageBase64 <- generateImage prompt ;;
       let imageUrl := dataUrl imageBase64 in
       emit ConsoleLine ;;;
       evaluation <- evaluateWithCLIP imageBase64 labItem ;;
       logTemplate numberToString teamName ;;;
       logs 2 ;;;
       emit (Respond 200
               (SuccessBody imageUrl (fst evaluation) (snd evaluation) teamName labItem
                  (str "Stable Diffusion XL + CLIP"))))
    (fun message =>
       emit ConsoleLine ;;;
       emit (Respond 500 (FailureBody (orElse message (str "An error occurred"))))).

End Run.
End ClipCopy.

(** What [evaluatePrompt(prompt, labItem)] does when called by a handler:
    a value that is not a string has no function [toLowerCase], and the
    call throws a TypeError.  The scorer writes one console line on entry
    and one before it returns. *)
Definition callScorer (scorer : jsstring -> jsstring -> ScoreResult)
    (prompt labItem : JsValue) : Eff ScoreResult :=
  emit ConsoleLine ;;;
  match prompt with
  | JString p =>
      match labItem with
      | JString l => emit ConsoleLine ;;; ret (scorer p l)
      | _ => throw (str "labItem.toLowerCase is not a function")
      end
  | _ => throw (str "prompt.toLowerCase is not a function")
  end.

(** *** Copy "BULLETPROOF v2 (with penalty)": Stable Diffusion, then Variant B *)

Module PenaltyCopy.
Section Run.

Variable toLowerCase : jsstring -> jsstring.
Variable numberToString : Num.number -> jsstring.
Variable world : World.

Definition generateImage (prompt : JsValue) : Eff jsstring :=
  emit ConsoleLine ;;;
  emit (ImageRequest prompt) ;;;
  match imageService world prompt with
  | FetchRejected message => throw message
  | HttpNotOk status errorText =>
      emit ConsoleLine ;;;
      throw (str "Image generation failed: " ++ statusText numberToString status)
  | HttpOk base64 => emit ConsoleLine ;;; ret base64
  end.

Definition evaluatePrompt (prompt labItem : JsValue) : Eff ScoreResult :=
  callScorer (VariantB.evaluatePrompt toLowerCase (randomDraw world)) prompt labItem.

(** The team name, the prompt and the lab item are written to the console,
    each in a template literal, before the fields are checked. *)
Definition handler (body : RequestBody) : Eff unit :=
  let prompt := bodyPrompt body in
  let labItem := bodyLabItem body in
  let teamName := bodyTeamName body in
  tryCatch
    (emit ConsoleLine ;;;
     logTemplate numberToString teamName ;;;
     logTemplate numberToString prompt ;;;
     logTemplate numberToString labItem ;;;
     emit ConsoleLine ;;;
     if missingFields body then
       emit (Respond 400 (FailureBody (str "Missing required fields")))
     else
       emit ConsoleLine ;;;
       match generateImage prompt with
       | (t, Thrown message) =>
           (t, Returned tt) ;;;
           emit ConsoleLine ;;;
           if includes message (str "loading") then
             emit (Respond 503 (FailureBody (str "Model loading, wait 30 seconds")))
           else throw message
       | (t, Returned imageBase64) =>
           (t, Returned tt) ;;;
           let imageUrl := dataUrl imageBase64 in
           emit ConsoleLine ;;;
           emit ConsoleLine ;;;
           evaluation <- evaluatePrompt prompt labItem ;;
           emit ConsoleLine ;;;
           logTemplate numberToString teamName ;;;
           logs 3 ;;;
           emit (Respond 200
                   (SuccessBody imageUrl (Num.ofZ (score evaluation))
                      (explanation evaluation) teamName labItem
                      (str "Stable Diffusion XL")))
       end)
    (fun message =>
       emit ConsoleLine ;;;
       emit (Respond 500 (FailureBody (orElse message (str "Server error"))))).

End Run.
End PenaltyCopy.

(** *** Copy "BULLETPROOF VERSION": Stable Diffusion, then Variant A *)

Module BulletproofCopy.
Section Run.

Variable toLowerCase : jsstring -> jsstring.
Variable numberToString : Num.number -> jsstring.
Variable world : World.
(** [!!HF_API_KEY] *)
Variable hfConfigured : bool.

Definition generateImage (prompt : JsValue) : Eff jsstring :=
  emit ConsoleLine ;;;
  emit (ImageRequest prompt) ;;;
  match imageService world prompt with
  | FetchRejected message => throw message
  | HttpNotOk status errorText =>
      emit ConsoleLine ;;;
      throw (str "Image generation failed: " ++ statusText numberToString status)
  | HttpOk base64 => emit ConsoleLine ;;; ret base64
  end.

Definition evaluatePrompt (prompt labItem : JsValue) : Eff ScoreResult :=
  callScorer (VariantA.evaluatePrompt toLowerCase (randomDraw world)) prompt labItem.

(** As in the penalty copy, the fields are written to the console before
    they are checked. *)
Definition handler (body : RequestBody) : Eff unit :=
  let prompt := bodyPrompt body in
  let labItem := bodyLabItem body in
  let teamName := bodyTeamName body in
  tryCatch
    (emit ConsoleLine ;;;
     logTemplate numberToString teamName ;;;
     logTemplate numberToString prompt ;;;
     logTemplate numberToString labItem ;;;
     emit ConsoleLine ;;;
     if missingFields body then
       emit ConsoleLine ;;;
       emit (Respond 400 (FailureBody (str "Missing required fields")))
     else if negb hfConfigured then
       emit ConsoleLine ;;;
       emit (Respond 500 (FailureBody (str "Backend not configured properly")))
     else
       emit ConsoleLine ;;;
       match generateImage prompt with
       | (t, Thrown message) =>
           (t, Returned tt) ;;;
           emit ConsoleLine ;;;
           if includes message (str "loading") then
             emit (Respond 503
                     (FailureBody (str "Model is loading, please wait 30 seconds and try again")))
           else throw message
       | (t, Returned imageBase64) =>
           (t, Returned tt) ;;;
           let imageUrl := dataUrl imageBase64 in
           emit ConsoleLine ;;;
           emit ConsoleLine ;;;
           evaluation <- evaluatePrompt prompt labItem ;;
           emit ConsoleLine ;;;
           logTemplate numberToString teamName ;;;
           logs 3 ;;;
           emit (Respond 200
                   (SuccessBody imageUrl (Num.ofZ (score evaluation))
                      (explanation evaluation) teamName labItem
                      (str "Stable Diffusion XL")))
       end)
    (fun message =>
       emit ConsoleLine ;;;
       emit ConsoleLine ;;;
       emit (Respond 500 (FailureBody (orElse message (str "Server error occurred"))))).

End Run.
End BulletproofCopy.

(** *** Copy "FIXED VERSION": Stable Diffusion, then CLIP, other console lines *)

Module FixedCopy.
Section Run.

Variable numberToString : Num.number -> jsstring.
Variable world : World.

Definition generateImage (prompt : JsValue) : Eff jsstring :=
  emit ConsoleLine ;;;
  emit (ImageRequest prompt) ;;;
  match imageService world prompt with
  | FetchRejected message => throw message
  | HttpNotOk status errorText =>
      throw (str "Hugging Face error: " ++ statusText numberToString status
             ++ str " - " ++ errorText)
  | HttpOk base64 => ret base64
  end.

(** The texts of this copy are those of [ClipCopy.explain]. *)
Definition evaluateWithCLIP (imageBase64 : jsstring) (labItem : JsValue)
  : Eff (Num.number * jsstring) :=
  emit ConsoleLine ;;;
  labItemText <- template numberToString labItem ;;
  emit (ClipRequest imageBase64 labItem) ;;;
  match clipService world imageBase64 labItem with
  | FetchRejected message => throw message
  | HttpNotOk status errorText =>
      emit ConsoleLine ;;;
      throw (str "CLIP evaluation failed: " ++ statusText numberToString status)
  | HttpOk result =>
      emit ConsoleLine ;;;
      ret (ClipTop.score result, ClipCopy.explain numberToString labItemText result)
  end.

Definition handler (body : RequestBody) : Eff unit :=
  let prompt := bodyPrompt body in
  let labItem := bodyLabItem body in
  let teamName := bodyTeamName body in
  tryCatch
    (if missingFields body then
       emit (Respond 400
               (FailureBody (str "Missing required fields: prompt, labItem, or teamName")))
     else
       logTemplate numberToString teamName ;;;
       logTemplate numberToString prompt ;;;
       logTemplate numberToString labItem ;;;
       emit ConsoleLine ;;;
       imageBase64 <- generateImage prompt ;;
       emit ConsoleLine ;;;
       let imageUrl := dataUrl imageBase64 in
       emit ConsoleLine ;;;
       emit ConsoleLine ;;;
       evaluation <- evaluateWithCLIP imageBase64 labItem ;;
       logs 2 ;;;
       emit (Respond 200
               (SuccessBody imageUrl (fst evaluation) (snd evaluation) teamName labItem
                  (str "Stable Diffusion XL + CLIP"))))
    (fun message =>
       emit ConsoleLine ;;;
       emit (Respond 500 (FailureBody (orElse message (str "An error occurred"))))).

End Run.
End FixedCopy.

(** *** The copy with the Cloudinary upload: Stable Diffusion, upload, CLIP *)

(** The answer to the upload: the [fetch], the parsing of the body as JSON
    or the read of [secure_url] fails (the body is not JSON, or is
    [null]), or the body is a JSON value, of which the copy reads the
    property [secure_url] ([JUndefined] when it is absent).  The copy does
    not look at the HTTP status of this answer. *)
Inductive UploadOutcome :=
| UploadRejected (message : jsstring)
| UploadAnswered (secure_url : JsValue).

Record CloudWorld := mkCloudWorld {
  services : World;
  uploadService : jsstring -> UploadOutcome
}.

(** The success object of this copy carries [imageUrl] as the value the
    upload gave, which need not be a string. *)
Inductive CloudBody :=
| CloudFailure (error : jsstring)
| CloudSuccess (imageUrl : JsValue) (score : Num.number) (explanation : jsstring)
               (teamName labItem : JsValue) (model : jsstring).

Inductive CloudEvent :=
| CloudConsoleLine
| CloudImageRequest (inputs : JsValue)
| CloudUploadRequest (file : jsstring)
| CloudClipRequest (image : jsstring) (labItem : JsValue)
| CloudRespond (status : Z) (body : CloudBody).

Definition isCloudExternalCall (e : CloudEvent) : bool :=
  match e with
  | CloudImageRequest _ | CloudUploadRequest _ | CloudClipRequest _ _ => true
  | _ => false
  end.

Definition isCloudResponse (e : CloudEvent) : bool :=
  match e with CloudRespond _ _ => true | _ => false end.

Module CloudinaryCopy.

(** The trace monad over the events of this copy. *)
Definition Eff (A : Type) : Type := list CloudEvent * Outcome A.

Definition ret {A} (a : A) : Eff A := ([], Returned a).
Definition throw {A} (message : jsstring) : Eff A := ([], Thrown message).
Definition emit (e : CloudEvent) : Eff unit := ([e], Returned tt).

Definition bind {A B} (m : Eff A) (k : A -> Eff B) : Eff B :=
  match m with
  | (t, Returned a) => let (t', r) := k a in (t ++ t', r)
  | (t, Thrown message) => (t, Thrown message)
  end.

Definition tryCatch {A} (m : Eff A) (h : jsstring -> Eff A) : Eff A :=
  match m with
  | (t, Returned a) => (t, Returned a)
  | (t, Thrown message) => let (t', r) := h message in (t ++ t', r)
  end.

Fixpoint logs (n : nat) : Eff unit :=
  match n with
  | O => ret tt
  | S n' => bind (emit CloudConsoleLine) (fun _ => logs n')
  end.

Definition trace {A} (m : Eff A) : list CloudEvent := fst m.

Section Run.

Variable numberToString : Num.number -> jsstring.
Variable world : CloudWorld.

(** [`${v}`] *)
Definition template (v : JsValue) : Eff jsstring := ([], ToString numberToString v).

(** [console.log(`... ${v} ...`)] *)
Definition logTemplate (v : JsValue) : Eff unit :=
  bind (template v) (fun _ => emit CloudConsoleLine).

Definition uploadToCloudinary (base64Image : jsstring) : Eff JsValue :=
  bind (emit (CloudUploadRequest (str "data:image/png;base64," ++ base64Image)))
       (fun _ =>
          match uploadService world base64Image with
          | UploadRejected message => throw message
          | UploadAnswered secure_url => ret secure_url
          end).

Definition generateImage (prompt : JsValue) : Eff jsstring :=
  bind (emit CloudConsoleLine) (fun _ =>
  bind (emit (CloudImageRequest prompt)) (fun _ =>
  match imageService (services world) prompt with
  | FetchRejected message => throw message
  | HttpNotOk status errorText =>
      throw (str "Hugging Face error: " ++ statusText numberToString status
             ++ str " - " ++ errorText)
  | HttpOk base64 => ret base64
  end)).

(** [`${Math.round(avgLabScore * 100)}`] *)
Definition percentText (avgLabScore : Num.number) : jsstring :=
  numberToString (Num.round (Num.mul avgLabScore (Num.ofZ 100))).

(** The explanation for a final score: the texts are those of the other
    copies with the classifier, the percentage is that of the average. *)
Definition explain (labItem : jsstring) (finalScore : Num.number)
    (result : ClipResult) : jsstring :=
  clipExplanation (clipBand finalScore) labItem
    (percentText (ClipAvg.avgLabScore result)).

(** The candidate labels are built before the request is sent; the answer
    is written to the console and then read. *)
Definition evaluateWithCLIP (imageBase64 : jsstring) (labItem : JsValue)
  : Eff (Num.number * jsstring) :=
  bind (emit CloudConsoleLine) (fun _ =>
  bind (template labItem) (fun labItemText =>
  bind (emit (CloudClipRequest imageBase64 labItem)) (fun _ =>
  match clipService (services world) imageBase64 labItem with
  | FetchRejected message => throw message
  | HttpNotOk status errorText =>
      throw (str "CLIP evaluation failed: " ++ statusText numberToString status)
  | HttpOk result =>
      bind (emit CloudConsoleLine) (fun _ =>
      match ClipAvg.finalScore result with
      | Some finalScore => ret (finalScore, explain labItemText finalScore result)
      | None => throw ClipAvg.readError
      end)
  end))).

(** The console line that shows the uploaded URL is inside the [try]: when
    the URL does not convert to a string, the [catch] takes over as for a
    failed upload. *)
Definition handler (body : RequestBody) : Eff unit :=
  let prompt := bodyPrompt body in
  let labItem := bodyLabItem body in
  let teamName := bodyTeamName body in
  tryCatch
    (if missingFields body then
       emit (CloudRespond 400
               (CloudFailure (str "Missing required fields: prompt, labItem, or teamName")))
     else
       bind (logTemplate teamName) (fun _ =>
       bind (logTemplate prompt) (fun _ =>
       bind (logTemplate labItem) (fun _ =>
       bind (emit CloudConsoleLine) (fun _ =>
       bind (generateImage prompt) (fun imageBase64 =>
       bind (logs 2) (fun _ =>
       bind (tryCatch
               (bind (uploadToCloudinary imageBase64) (fun url =>
                bind (logTemplate url) (fun _ => ret url)))
               (fun _ =>
                bind (emit CloudConsoleLine) (fun _ =>
                ret (JString (str "data:image/png;base64," ++ imageBase64)))))
            (fun imageUrl =>
       bind (emit CloudConsoleLine) (fun _ =>
       bind (evaluateWithCLIP imageBase64 labItem) (fun evaluation =>
       bind (logs 2) (fun _ =>
       emit (CloudRespond 200
               (CloudSuccess imageUrl (fst evaluation) (snd evaluation) teamName labItem
                  (str "Stable Diffusion XL + CLIP"))))))))))))))
    (fun message =>
       bind (emit CloudConsoleLine) (fun _ =>
       emit (CloudRespond 500 (CloudFailure (orElse message (str "An error occurred")))))).

End Run.
End CloudinaryCopy.

(** A response as the copies build it: the success object goes with status
    200, the failure object with 400, 500 or 503. *)
Definition responseWellFormed (status : Z) (body : ResponseBody) : bool :=
  match body with
  | SuccessBody _ _ _ _ _ _ => status =? 200
  | FailureBody _ => (status =? 400) || (status =? 500) || (status =? 503)
  end.

Definition cloudResponseWellFormed (status : Z) (body : CloudBody) : bool :=
  match body with
  | CloudSuccess _ _ _ _ _ _ => status =? 200
  | CloudFailure _ => (status =? 400) || (status =? 500)
  end.

(** No confidence of the answer is [Infinity] or [-Infinity]. *)
Definition noInfinity (result : ClipResult) : bool :=
  forallb (fun e => match entryScore e with
                    | Some (S754_infinity _) => false
                    | _ => true
                    end)
          (entriesOf result).

(** A run that answers the request exactly once, as its last event, with a
    well-formed response, and returns without an uncaught error. *)
Definition answersOnce (run : Eff unit) : Prop :=
  exists status body,
    filter isResponse (trace run) = [Respond status body] /\
    last (trace run) ConsoleLine = Respond status body /\
    snd run = Returned tt /\
    responseWellFormed status body = true.

Definition cloudAnswersOnce (run : CloudinaryCopy.Eff unit) : Prop :=
  exists status body,
    filter isCloudResponse (CloudinaryCopy.trace run) = [CloudRespond status body] /\
    last (CloudinaryCopy.trace run) CloudConsoleLine = CloudRespond status body /\
    snd run = Returned tt /\
    cloudResponseWellFormed status body = true.

(** An upload that fails. *)
Definition failingUpload (base64Image : jsstring) : UploadOutcome :=
  UploadRejected (str "getaddrinfo ENOTFOUND api.cloudinary.com").

(** A world whose image service cannot be reached. *)
Definition rejectingWorld : World :=
  mkWorld (fun _ => FetchRejected (str "the model is loading"))
          (fun _ _ => HttpOk (ResultArray []))
          5.

(** A value that is neither NaN nor infinite. *)
Definition finiteNumber (x : Num.number) : bool :=
  match x with
  | S754_zero _ | S754_finite _ _ _ => true
  | _ => false
  end.

(** [typeof v === 'string'] *)
Definition isString (v : JsValue) : bool :=
  match v with JString _ => true | _ => false end.

(** The responses and the requests to external services of a run, in the
    order in which they happen. *)
Definition responsesOf (run : Eff unit) : list Event := filter isResponse (trace run).
Definition externalCallsOf (run : Eff unit) : list Event :=
  filter isExternalCall (trace run).
Definition cloudResponsesOf (run : CloudinaryCopy.Eff unit) : list CloudEvent :=
  filter isCloudResponse (CloudinaryCopy.trace run).
Definition cloudExternalCallsOf (run : CloudinaryCopy.Eff unit) : list CloudEvent :=
  filter isCloudExternalCall (CloudinaryCopy.trace run).

(** A world whose image service answers 503 with a text that says the model
    is loading. *)
Definition loadingWorld : World :=
  mkWorld (fun _ => HttpNotOk 503 (str "Model is currently loading"))
          (fun _ _ => HttpOk (ResultArray []))
          5.

(** The integer a number is, when it is one. *)
Definition integerValue (x : Num.number) : option Z :=
  match x with
  | S754_zero _ => Some 0
  | S754_finite s m e =>
      if 0 <=? e then Some (cond_Zopp s (Z.pos m * 2 ^ e))
      else if Z.pos m mod 2 ^ (- e) =? 0
           then Some (cond_Zopp s (Z.pos m / 2 ^ (- e)))
           else None
  | _ => None
  end.

(** Number formatting for the examples: the decimal digits of a number
    that is an integer, which is what the runtime prints for an integer
    below 10^21.  The examples print no other number. *)
Definition sampleNumberToString (x : Num.number) : jsstring :=
  match integerValue x with
  | Some z => str (NilZero.string_of_int (Z.to_int z))
  | None => str "NaN"
  end.

(** A request with its three fields present. *)
Definition sampleBody : RequestBody :=
  mkRequestBody (JString (str "lab test flask glass vessel"))
                (JString (str "beaker")) (JString (str "Team 1")).

(** The body [{ "labItem": "beaker", "teamName": { "toString": 1 } }]: the
    prompt is absent, and the team name is an object whose conversion to a
    string throws. *)
Definition unprintableTeamBody : RequestBody :=
  mkRequestBody JUndefined (JString (str "beaker")) (JObject None).

(** A world to run the handlers in: both services answer, the classifier
    with an empty array, and the draw is 5. *)
Definition sampleWorld : World :=
  mkWorld (fun _ => HttpOk (str "aW1hZ2U="))
          (fun _ _ => HttpOk (ResultArray []))
          5.

(** * Properties *)

(** ** Substring search *)

Lemma startsWith_nil_r (s : jsstring) : startsWith s [] = true.
Proof. now destruct s. Qed.

Lemma startsWith_app (p rest : jsstring) : startsWith (p ++ rest) p = true.
Proof.
  induction p as [|c p IH]; simpl; [apply startsWith_nil_r|].
  now rewrite N.eqb_refl, IH.
Qed.

Lemma startsWith_inv (s p : jsstring) :
  startsWith s p = true -> exists rest, s = p ++ rest.
Proof.
  revert s; induction p as [|c p IH]; intros s H.
  - now exists s.
  - destruct s as [|d s]; simpl in H; [discriminate|].
    apply andb_true_iff in H as [Hc Hs].
    apply N.eqb_eq in Hc; subst d.
    destruct (IH _ Hs) as [rest ->].
    now exists rest.
Qed.

(** [includes] is substring search: it answers [true] exactly when the
    pattern occurs somewhere in the string. *)
Lemma includes_spec (s p : jsstring) :
  includes s p = true <-> exists before after, s = before ++ p ++ after.
Proof.
  split.
  - induction s as [|c s IH]; cbn [includes]; intros H.
    + destruct p; [|discriminate]. now exists [], [].
    + apply orb_true_iff in H as [H|H].
      * destruct (startsWith_inv _ _ H) as [rest E].
        exists [], rest. exact E.
      * destruct (IH H) as (b & a & ->).
        now exists (c :: b), a.
  - intros (b & a & ->).
    induction b as [|c b IH].
    + cbn [app]. destruct (p ++ a) as [|c r] eqn:E; cbn [includes].
      * destruct p; [reflexivity|discriminate].
      * rewrite <- E, startsWith_app. reflexivity.
    + cbn [app includes]. rewrite IH. apply orb_true_r.
Qed.

(** The empty string is included in every string. *)
Lemma includes_nil_r (s : jsstring) : includes s [] = true.
Proof. apply includes_spec. now exists [], s. Qed.

(** The empty string includes only the empty string. *)
Lemma includes_nil_l (p : jsstring) : includes [] p = true -> p = [].
Proof. destruct p; [reflexivity|discriminate]. Qed.

Lemma includes_refl (s : jsstring) : includes s s = true.
Proof. apply includes_spec. exists [], []. now rewrite app_nil_r. Qed.

Lemma toLowerCaseAscii_nil : toLowerCaseAscii [] = [].
Proof. reflexivity. Qed.

Lemma toLowerCaseAscii_nil_inv (s : jsstring) : toLowerCaseAscii s = [] -> s = [].
Proof. destruct s; [reflexivity|discriminate]. Qed.

(** ** Counting and bonuses *)

Lemma filter_length_mono {A} (f g : A -> bool) (l : list A) :
  (forall x, f x = true -> g x = true) ->
  (List.length (filter f l) <= List.length (filter g l))%nat.
Proof.
  intros Hfg. induction l as [|x l IH]; simpl; [lia|].
  destruct (f x) eqn:Ef.
  - rewrite (Hfg _ Ef). simpl. lia.
  - destruct (g x); simpl; lia.
Qed.

(** The keywords of each list are pairwise different, so the length of the
    filtered list is the number of distinct keywords that match. *)
Lemma scienceKeywords_NoDup :
  NoDup VariantA.scienceKeywords /\ NoDup VariantB.scienceKeywords.
Proof.
  split; repeat (constructor; [cbv; intuition discriminate|]); constructor.
Qed.

Lemma variantA_scienceCount_range toLowerCase prompt :
  0 <= VariantA.scienceCount toLowerCase prompt <= 11.
Proof.
  unfold VariantA.scienceCount, VariantA.matchedKeywords.
  pose proof (filter_length_le
                (fun word => includes (toLowerCase prompt) word)
                VariantA.scienceKeywords) as H.
  change (List.length VariantA.scienceKeywords) with 11%nat in H. lia.
Qed.

Lemma variantB_scienceCount_range toLowerCase prompt :
  0 <= VariantB.scienceCount toLowerCase prompt <= 15.
Proof.
  unfold VariantB.scienceCount, VariantB.matchedKeywords.
  pose proof (filter_length_le
                (fun word => includes (toLowerCase prompt) word)
                VariantB.scienceKeywords) as H.
  change (List.length VariantB.scienceKeywords) with 15%nat in H. lia.
Qed.

Lemma variantB_lengthBonus_range prompt :
  0 <= VariantB.lengthBonus prompt <= 20.
Proof.
  unfold VariantB.lengthBonus.
  destruct (50 <? jslength prompt), (100 <? jslength prompt); lia.
Qed.

Lemma variantA_subtotal_range toLowerCase prompt labItem :
  50 <= VariantA.subtotal toLowerCase prompt labItem <= 100.
Proof.
  unfold VariantA.subtotal, VariantA.mentionBonus, VariantA.keywordBonus.
  pose proof (variantA_scienceCount_range toLowerCase prompt).
  destruct (VariantA.mentionsLabItem toLowerCase prompt labItem); lia.
Qed.

Lemma variantB_subtotal_range toLowerCase prompt :
  50 <= VariantB.subtotal toLowerCase prompt <= 90.
Proof.
  unfold VariantB.subtotal, VariantB.keywordBonus.
  pose proof (variantB_scienceCount_range toLowerCase prompt).
  pose proof (variantB_lengthBonus_range prompt). lia.
Qed.

Lemma clamp_range lo hi x : lo <= hi -> lo <= clamp lo hi x <= hi.
Proof. unfold clamp. lia. Qed.

(** ** The explanation texts *)

Lemma variantA_texts_distinct labItem :
  VariantA.excellentText labItem <> VariantA.goodText labItem /\
  VariantA.goodText labItem <> VariantA.creativeText labItem /\
  VariantA.excellentText labItem <> VariantA.creativeText labItem.
Proof. repeat split; intro H; discriminate H. Qed.

Lemma variantB_texts_distinct :
  VariantB.excellentText <> VariantB.goodText /\
  VariantB.goodText <> VariantB.creativeText /\
  VariantB.excellentText <> VariantB.creativeText.
Proof. repeat split; intro H; discriminate H. Qed.

Lemma variantA_explain_nonempty labItem s : VariantA.explain labItem s <> [].
Proof.
  unfold VariantA.explain.
  destruct (70 <=? s); [|destruct (50 <=? s)]; intro H; discriminate H.
Qed.

Lemma variantB_explain_nonempty s : VariantB.explain s <> [].
Proof.
  unfold VariantB.explain.
  destruct (80 <=? s); [|destruct (60 <=? s)]; intro H; discriminate H.
Qed.

Lemma variantB_forbidden_nonempty labItem : VariantB.forbiddenExplanation labItem <> [].
Proof. intro H; discriminate H. Qed.

(** ** Variant B: the penalty *)

(** C1.  In Variant B, whenever the lower-cased prompt contains the
    lower-cased lab item as a substring, [evaluatePrompt] returns score 0
    with the fixed forbidden-word explanation, whatever the keywords, the
    length of the prompt and the random draw are. *)
Theorem variantB_forbidden_word_scores_zero
    (toLowerCase : jsstring -> jsstring) (rnd : Z) (prompt labItem : jsstring) :
  includes (toLowerCase prompt) (toLowerCase labItem) = true ->
  VariantB.evaluatePrompt toLowerCase rnd prompt labItem
  = mkScoreResult 0 (VariantB.forbiddenExplanation labItem).
Proof.
  intros H. unfold VariantB.evaluatePrompt, VariantB.usedLabItemWord.
  now rewrite H.
Qed.

Lemma variantB_forbidden_word_scores_zero_witness :
  includes (toLowerCaseAscii (str "A glass BEAKER in a laboratory, with a flask"))
           (toLowerCaseAscii (str "Beaker")) = true /\
  VariantB.evaluatePrompt toLowerCaseAscii 9
    (str "A glass BEAKER in a laboratory, with a flask") (str "Beaker")
  = mkScoreResult 0 (VariantB.forbiddenExplanation (str "Beaker")).
Proof.
  split; [reflexivity|].
  apply (variantB_forbidden_word_scores_zero toLowerCaseAscii 9
           (str "A glass BEAKER in a laboratory, with a flask") (str "Beaker")).
  reflexivity.
Defined.

(** Variant B on its scoring path. *)
Lemma variantB_scoring_path toLowerCase rnd prompt labItem :
  VariantB.usedLabItemWord toLowerCase prompt labItem = false ->
  VariantB.evaluatePrompt toLowerCase rnd prompt labItem
  = let s := clamp 30 100 (VariantB.subtotal toLowerCase prompt + (rnd - 5)) in
    mkScoreResult s (VariantB.explain s).
Proof. intros H. unfold VariantB.evaluatePrompt. now rewrite H. Qed.

(** ** The range of the score *)

(** C2, as the specification states it, fails: a prompt that names the lab
    item gets score 0 from Variant B, below the clamp bounds [30,100]. *)
Lemma variantB_penalty_score_below_clamp :
  ~ (30 <= score (VariantB.evaluatePrompt toLowerCaseAscii 5
                    (str "a glass beaker") (str "beaker")) <= 100).
Proof. vm_compute. intros [H _]. apply H. reflexivity. Qed.

(** C2, amended.  The score of Variant A lies in [0,100].  The score of
    Variant B is 0 when the prompt contains the lab item and lies in
    [30,100] otherwise.  In both variants it is an integer of [0,100]. *)
Theorem evaluatePrompt_score_bounds
    (toLowerCase : jsstring -> jsstring) (rnd : Z) (prompt labItem : jsstring) :
  0 <= score (VariantA.evaluatePrompt toLowerCase rnd prompt labItem) <= 100 /\
  0 <= score (VariantB.evaluatePrompt toLowerCase rnd prompt labItem) <= 100 /\
  (if VariantB.usedLabItemWord toLowerCase prompt labItem
   then score (VariantB.evaluatePrompt toLowerCase rnd prompt labItem) = 0
   else 30 <= score (VariantB.evaluatePrompt toLowerCase rnd prompt labItem) <= 100).
Proof.
  split; [|].
  - unfold VariantA.evaluatePrompt. cbn [score]. apply clamp_range. lia.
  - unfold VariantB.evaluatePrompt.
    destruct (VariantB.usedLabItemWord toLowerCase prompt labItem); cbn [score].
    + lia.
    + pose proof (clamp_range 30 100
                    (VariantB.subtotal toLowerCase prompt + (rnd - 5))). lia.
Qed.

(** C10.  Variant B returns either exactly 0 (the penalty path) or a score
    of [30,100] (the clamped scoring path); no input gives a score from 1
    to 29. *)
Theorem variantB_score_zero_or_clamped
    (toLowerCase : jsstring -> jsstring) (rnd : Z) (prompt labItem : jsstring) :
  (score (VariantB.evaluatePrompt toLowerCase rnd prompt labItem) = 0 \/
   30 <= score (VariantB.evaluatePrompt toLowerCase rnd prompt labItem) <= 100) /\
  ~ (1 <= score (VariantB.evaluatePrompt toLowerCase rnd prompt labItem) <= 29).
Proof.
  unfold VariantB.evaluatePrompt.
  destruct (VariantB.usedLabItemWord toLowerCase prompt labItem); cbn [score].
  - split; [now left | lia].
  - pose proof (clamp_range 30 100
                  (VariantB.subtotal toLowerCase prompt + (rnd - 5))).
    split; [right|]; lia.
Qed.

(** ** Variant A: the mention bonus *)

(** C3.  In Variant A, with the same random draw, a prompt that contains the
    lab item (case-insensitively) scores strictly more than a prompt that
    does not.  The value before the random variation is 80 plus the keyword
    bonus with the mention and 50 plus the keyword bonus without it, so it
    is greater by exactly 30 for prompts that match the same keywords, and
    still strictly greater for any two prompts: the keyword bonus is at most
    20.  The same order holds for the returned score under any one draw of
    0..9. *)
Theorem variantA_mention_strictly_increases
    (toLowerCase : jsstring -> jsstring) (rnd : Z)
    (withItem withoutItem labItem : jsstring) :
  0 <= rnd <= 9 ->
  includes (toLowerCase withItem) (toLowerCase labItem) = true ->
  includes (toLowerCase withoutItem) (toLowerCase labItem) = false ->
  VariantA.subtotal toLowerCase withItem labItem
  = 80 + VariantA.keywordBonus (VariantA.scienceCount toLowerCase withItem) /\
  VariantA.subtotal toLowerCase withoutItem labItem
  = 50 + VariantA.keywordBonus (VariantA.scienceCount toLowerCase withoutItem) /\
  VariantA.subtotal toLowerCase withoutItem labItem
  < VariantA.subtotal toLowerCase withItem labItem /\
  score (VariantA.evaluatePrompt toLowerCase rnd withoutItem labItem)
  < score (VariantA.evaluatePrompt toLowerCase rnd withItem labItem).
Proof.
  intros Hr Hin Hout.
  unfold VariantA.evaluatePrompt. cbn [score].
  unfold VariantA.subtotal, VariantA.mentionBonus, VariantA.mentionsLabItem.
  rewrite Hin, Hout.
  pose proof (variantA_scienceCount_range toLowerCase withItem).
  pose proof (variantA_scienceCount_range toLowerCase withoutItem).
  unfold VariantA.keywordBonus, clamp. lia.
Qed.

Lemma variantA_mention_strictly_increases_witness :
  0 <= 3 <= 9 /\
  includes (toLowerCaseAscii (str "a Flask on a lab bench"))
           (toLowerCaseAscii (str "flask")) = true /\
  includes (toLowerCaseAscii (str "a jar on a lab bench"))
           (toLowerCaseAscii (str "flask")) = false /\
  score (VariantA.evaluatePrompt toLowerCaseAscii 3 (str "a jar on a lab bench") (str "flask"))
  < score (VariantA.evaluatePrompt toLowerCaseAscii 3 (str "a Flask on a lab bench") (str "flask")).
Proof.
  split; [lia|]. split; [reflexivity|]. split; [reflexivity|].
  apply (variantA_mention_strictly_increases toLowerCaseAscii 3
           (str "a Flask on a lab bench") (str "a jar on a lab bench") (str "flask"));
    [lia | reflexivity | reflexivity].
Defined.

(** ** The keyword bonus *)

(** The number of matched keywords grows with the set of matched keywords. *)
Lemma scienceCount_mono (toLowerCase : jsstring -> jsstring) (fewer more : jsstring) :
  (forall word, includes (toLowerCase fewer) word = true ->
                includes (toLowerCase more) word = true) ->
  VariantA.scienceCount toLowerCase fewer <= VariantA.scienceCount toLowerCase more /\
  VariantB.scienceCount toLowerCase fewer <= VariantB.scienceCount toLowerCase more.
Proof.
  intros H.
  unfold VariantA.scienceCount, VariantB.scienceCount,
    VariantA.matchedKeywords, VariantB.matchedKeywords.
  split; apply Nat2Z.inj_le, filter_length_mono; exact H.
Qed.

(** C4.  In both variants the keyword bonus is a non-decreasing function of
    the number of matched keywords and never exceeds 20: it is
    [min(20, count * 5)] in Variant A, which reaches 20 from four keywords
    on, and [min(20, count * 4)] in Variant B, which reaches 20 from five
    keywords on.  A prompt that matches every keyword another prompt matches
    has at least the count, hence at least the bonus, of the other, and
    still at most 20. *)
Theorem keyword_bonus_monotone_saturating
    (toLowerCase : jsstring -> jsstring) (fewer more : jsstring) (c1 c2 : Z) :
  (forall word, includes (toLowerCase fewer) word = true ->
                includes (toLowerCase more) word = true) ->
  c1 <= c2 ->
  (VariantA.keywordBonus c1 <= VariantA.keywordBonus c2 <= 20 /\
   VariantB.keywordBonus c1 <= VariantB.keywordBonus c2 <= 20) /\
  (VariantA.keywordBonus (Z.max 4 c2) = 20 /\
   VariantB.keywordBonus (Z.max 5 c2) = 20) /\
  (VariantA.keywordBonus (VariantA.scienceCount toLowerCase fewer)
   <= VariantA.keywordBonus (VariantA.scienceCount toLowerCase more) <= 20 /\
   VariantB.keywordBonus (VariantB.scienceCount toLowerCase fewer)
   <= VariantB.keywordBonus (VariantB.scienceCount toLowerCase more) <= 20).
Proof.
  intros Hsub Hle.
  destruct (scienceCount_mono toLowerCase fewer more Hsub) as [HA HB].
  revert HA HB.
  generalize (VariantA.scienceCount toLowerCase fewer)
             (VariantA.scienceCount toLowerCase more)
             (VariantB.scienceCount toLowerCase fewer)
             (VariantB.scienceCount toLowerCase more).
  intros a1 a2 b1 b2 HA HB. clear Hsub.
  unfold VariantA.keywordBonus, VariantB.keywordBonus.
  repeat split; lia.
Qed.

Lemma keyword_bonus_monotone_saturating_witness :
  (forall word, includes (toLowerCaseAscii (str "a lab")) word = true ->
                includes (toLowerCaseAscii (str "a lab with a glass flask")) word = true) /\
  2 <= 3 /\
  VariantA.keywordBonus 2 <= VariantA.keywordBonus 3 <= 20 /\
  VariantB.keywordBonus
    (VariantB.scienceCount toLowerCaseAscii (str "a lab"))
  <= VariantB.keywordBonus
       (VariantB.scienceCount toLowerCaseAscii (str "a lab with a glass flask")) <= 20.
Proof.
  assert (Hsub : forall word,
             includes (toLowerCaseAscii (str "a lab")) word = true ->
             includes (toLowerCaseAscii (str "a lab with a glass flask")) word = true).
  { intros word H. apply includes_spec in H as (b & a & E).
    apply includes_spec. exists b, (a ++ str " with a glass flask").
    change (toLowerCaseAscii (str "a lab with a glass flask"))
      with (toLowerCaseAscii (str "a lab") ++ str " with a glass flask").
    rewrite E, <- !app_assoc. reflexivity. }
  split; [exact Hsub|]. split; [lia|].
  pose proof (keyword_bonus_monotone_saturating toLowerCaseAscii
                (str "a lab") (str "a lab with a glass flask") 2 3 Hsub
                ltac:(lia)) as H.
  split; [apply H | apply H].
Defined.

(** ** The explanation bands *)

(** C5, as the specification states it, fails for Variant B: this input has
    the final score 70 and gets the moderate wording ("Good prompt!"), not
    the strong one, because the strong band of Variant B starts at 80. *)
Lemma variantB_score_70_is_moderate :
  let r := VariantB.evaluatePrompt toLowerCaseAscii 5
             (str "lab test flask glass vessel") (str "beaker") in
  score r = 70 /\
  explanation r = VariantB.goodText /\
  explanation r <> VariantB.excellentText.
Proof.
  split; [reflexivity|]. split; [reflexivity|].
  intro H; discriminate H.
Qed.

(** C5, amended.  The explanation is selected from the final score by
    comparisons with [>=].  In Variant A the strong wording is returned from
    70 on (so a score of exactly 70 gets it), the moderate wording from 50
    to 69 and the weak wording below 50.  In Variant B, on the scoring path,
    the strong wording is returned from 80 on, the moderate wording from 60
    to 79 (so a score of exactly 70 gets the moderate wording) and the weak
    wording below 60; on the penalty path the forbidden-word text is
    returned. *)
Theorem explanation_bands_by_variant
    (toLowerCase : jsstring -> jsstring) (rnd : Z) (prompt labItem : jsstring) :
  let a := VariantA.evaluatePrompt toLowerCase rnd prompt labItem in
  let b := VariantB.evaluatePrompt toLowerCase rnd prompt labItem in
  explanation a
  = (if 70 <=? score a then VariantA.excellentText labItem
     else if 50 <=? score a then VariantA.goodText labItem
     else VariantA.creativeText labItem) /\
  explanation b
  = (if VariantB.usedLabItemWord toLowerCase prompt labItem
     then VariantB.forbiddenExplanation labItem
     else if 80 <=? score b then VariantB.excellentText
     else if 60 <=? score b then VariantB.goodText
     else VariantB.creativeText).
Proof.
  cbv zeta. split.
  - reflexivity.
  - unfold VariantB.evaluatePrompt.
    destruct (VariantB.usedLabItemWord toLowerCase prompt labItem); reflexivity.
Qed.

(** A run of Variant A that ends on exactly 70 gets the strong wording. *)
Example variantA_score_70_is_strong :
  let r := VariantA.evaluatePrompt toLowerCaseAscii 5
             (str "lab test flask and research") (str "beaker") in
  score r = 70 /\ explanation r = VariantA.excellentText (str "beaker").
Proof. split; reflexivity. Qed.

(** ** The worked example of Variant A *)

(** C6.  Variant A on prompt "a laboratory beaker with blue liquid" and lab
    item "beaker" (both already in lower case, so [toLowerCase] returns them
    unchanged): the prompt mentions the lab item (+30); three keywords of
    the list match, at 5 each (+15, under the cap of 20); the value before
    the random variation is exactly 95; the returned score is 90 plus the
    draw, which is at most 100; the explanation is the strong one.  The
    three keywords that match are "laboratory", "lab" and "beaker". *)
Theorem variantA_beaker_example (toLowerCase : jsstring -> jsstring) (rnd : Z) :
  toLowerCase beakerPrompt = beakerPrompt ->
  toLowerCase (str "beaker") = str "beaker" ->
  0 <= rnd <= 9 ->
  let r := VariantA.evaluatePrompt toLowerCase rnd beakerPrompt (str "beaker") in
  VariantA.mentionBonus toLowerCase beakerPrompt (str "beaker") = 30 /\
  VariantA.matchedKeywords toLowerCase beakerPrompt
  = [str "laboratory"; str "lab"; str "beaker"] /\
  VariantA.scienceCount toLowerCase beakerPrompt = 3 /\
  VariantA.keywordBonus (VariantA.scienceCount toLowerCase beakerPrompt) = 15 /\
  VariantA.subtotal toLowerCase beakerPrompt (str "beaker") = 95 /\
  score r = 90 + rnd /\
  score r <= 100 /\
  explanation r = VariantA.excellentText (str "beaker").
Proof.
  intros Hp Hl Hr.
  assert (Hm : VariantA.mentionBonus toLowerCase beakerPrompt (str "beaker") = 30).
  { unfold VariantA.mentionBonus, VariantA.mentionsLabItem.
    rewrite Hp, Hl. reflexivity. }
  assert (Hk : VariantA.matchedKeywords toLowerCase beakerPrompt
               = [str "laboratory"; str "lab"; str "beaker"]).
  { unfold VariantA.matchedKeywords. rewrite Hp. reflexivity. }
  assert (Hc : VariantA.scienceCount toLowerCase beakerPrompt = 3).
  { unfold VariantA.scienceCount. rewrite Hk. reflexivity. }
  assert (Hs : VariantA.subtotal toLowerCase beakerPrompt (str "beaker") = 95).
  { unfold VariantA.subtotal. rewrite Hm, Hc. reflexivity. }
  assert (Hscore : score (VariantA.evaluatePrompt toLowerCase rnd beakerPrompt
                            (str "beaker")) = 90 + rnd).
  { unfold VariantA.evaluatePrompt. cbn [score]. rewrite Hs. unfold clamp. lia. }
  cbv zeta. repeat split; try assumption.
  - rewrite Hc. reflexivity.
  - lia.
  - unfold VariantA.evaluatePrompt in *. cbn [score explanation] in *.
    unfold VariantA.explain. rewrite Hscore.
    destruct (70 <=? 90 + rnd) eqn:E; [reflexivity|].
    apply Z.leb_gt in E. lia.
Qed.

Lemma variantA_beaker_example_witness :
  toLowerCaseAscii beakerPrompt = beakerPrompt /\
  toLowerCaseAscii (str "beaker") = str "beaker" /\
  0 <= 4 <= 9 /\
  VariantA.subtotal toLowerCaseAscii beakerPrompt (str "beaker") = 95 /\
  score (VariantA.evaluatePrompt toLowerCaseAscii 4 beakerPrompt (str "beaker")) = 90 + 4.
Proof.
  split; [reflexivity|]. split; [reflexivity|]. split; [lia|].
  pose proof (variantA_beaker_example toLowerCaseAscii 4
                eq_refl eq_refl ltac:(lia)) as H.
  cbv zeta in H. split; apply H.
Defined.

(** ** Empty strings *)

(** C9, as the specification states it, fails: with the empty lab item the
    mention is found (the empty string is a substring of every string), so
    Variant A adds 30; the keywords of the prompt still count. *)
Lemma variantA_empty_labItem_bonus_nonzero :
  VariantA.mentionBonus toLowerCaseAscii (str "a lab bench") [] = 30 /\
  VariantA.keywordBonus (VariantA.scienceCount toLowerCaseAscii (str "a lab bench")) = 5 /\
  ~ (VariantA.mentionBonus toLowerCaseAscii (str "a lab bench") [] = 0 /\
     VariantA.keywordBonus
       (VariantA.scienceCount toLowerCaseAscii (str "a lab bench")) = 0).
Proof.
  split; [reflexivity|]. split; [reflexivity|].
  intros [H _]. discriminate H.
Qed.

(** C9, amended.  [evaluatePrompt] returns a result on every pair of
    strings: a score of [0,100] and a non-empty explanation.  For the empty
    prompt no keyword matches, the keyword bonus and the length bonus are
    zero, and a lab item that is not empty is not found in it.  The empty
    lab item is found in every prompt: Variant A adds the mention bonus of
    30 and Variant B returns the zero score of the penalty.  [toLowerCase]
    is assumed to map the empty string, and only it, to the empty string. *)
Theorem evaluatePrompt_total_empty_strings
    (toLowerCase : jsstring -> jsstring) (rnd : Z) (prompt labItem : jsstring)
    (c : codeUnit) (rest : jsstring) :
  toLowerCase [] = [] ->
  (forall s, toLowerCase s = [] -> s = []) ->
  (exists s e, VariantA.evaluatePrompt toLowerCase rnd prompt labItem = mkScoreResult s e
               /\ 0 <= s <= 100 /\ e <> []) /\
  (exists s e, VariantB.evaluatePrompt toLowerCase rnd prompt labItem = mkScoreResult s e
               /\ 0 <= s <= 100 /\ e <> []) /\
  (VariantA.matchedKeywords toLowerCase [] = [] /\
   VariantA.keywordBonus (VariantA.scienceCount toLowerCase []) = 0 /\
   VariantA.mentionBonus toLowerCase [] (c :: rest) = 0 /\
   VariantA.subtotal toLowerCase [] (c :: rest) = 50) /\
  (VariantB.matchedKeywords toLowerCase [] = [] /\
   VariantB.keywordBonus (VariantB.scienceCount toLowerCase []) = 0 /\
   VariantB.lengthBonus [] = 0 /\
   VariantB.usedLabItemWord toLowerCase [] (c :: rest) = false /\
   VariantB.subtotal toLowerCase [] = 50) /\
  (VariantA.mentionBonus toLowerCase prompt [] = 30 /\
   VariantB.evaluatePrompt toLowerCase rnd prompt []
   = mkScoreResult 0 (VariantB.forbiddenExplanation [])).
Proof.
  intros Hnil Hinv.
  assert (HmA : VariantA.matchedKeywords toLowerCase [] = []).
  { unfold VariantA.matchedKeywords. rewrite Hnil. reflexivity. }
  assert (HmB : VariantB.matchedKeywords toLowerCase [] = []).
  { unfold VariantB.matchedKeywords. rewrite Hnil. reflexivity. }
  assert (Hno : includes (toLowerCase []) (toLowerCase (c :: rest)) = false).
  { rewrite Hnil. destruct (toLowerCase (c :: rest)) eqn:E; [|reflexivity].
    apply Hinv in E. discriminate E. }
  assert (Hyes : includes (toLowerCase prompt) (toLowerCase []) = true).
  { rewrite Hnil. apply includes_nil_r. }
  split; [|split; [|split; [|split]]].
  - eexists _, _. split; [reflexivity|]. split.
    + apply clamp_range. lia.
    + apply variantA_explain_nonempty.
  - unfold VariantB.evaluatePrompt.
    destruct (VariantB.usedLabItemWord toLowerCase prompt labItem).
    + eexists _, _. split; [reflexivity|]. split; [lia|].
      apply variantB_forbidden_nonempty.
    + eexists _, _. split; [reflexivity|]. split.
      * pose proof (clamp_range 30 100
                      (VariantB.subtotal toLowerCase prompt + (rnd - 5))). lia.
      * apply variantB_explain_nonempty.
  - unfold VariantA.subtotal, VariantA.mentionBonus, VariantA.mentionsLabItem,
      VariantA.scienceCount.
    rewrite HmA, Hno. repeat split; reflexivity.
  - unfold VariantB.subtotal, VariantB.usedLabItemWord, VariantB.scienceCount.
    rewrite HmB, Hno. repeat split; reflexivity.
  - split.
    + unfold VariantA.mentionBonus, VariantA.mentionsLabItem. now rewrite Hyes.
    + unfold VariantB.evaluatePrompt, VariantB.usedLabItemWord. now rewrite Hyes.
Qed.

Lemma evaluatePrompt_total_empty_strings_witness :
  toLowerCaseAscii [] = [] /\
  (forall s, toLowerCaseAscii s = [] -> s = []) /\
  VariantA.subtotal toLowerCaseAscii [] (str "beaker") = 50 /\
  VariantA.mentionBonus toLowerCaseAscii (str "a glass jar") [] = 30 /\
  VariantB.evaluatePrompt toLowerCaseAscii 2 (str "a glass jar") []
  = mkScoreResult 0 (VariantB.forbiddenExplanation []).
Proof.
  split; [reflexivity|]. split; [exact toLowerCaseAscii_nil_inv|].
  pose proof (evaluatePrompt_total_empty_strings toLowerCaseAscii 2
                (str "a glass jar") (str "beaker") 98%N (str "eaker")
                toLowerCaseAscii_nil toLowerCaseAscii_nil_inv) as H.
  split; [apply H|]. split; apply H.
Defined.

(** ** The request handlers *)

(** A field counts as missing when it is absent or falsy. *)
Example falsy_fields :
  map toBoolean [JUndefined; JNull; JBool false; JNumber Num.zero; JString []]
  = [false; false; false; false; false] /\
  map toBoolean [JBool true; JNumber (Num.ofZ 7); JString (str "0");
                 JObject (Some (str "[object Object]")); JObject None]
  = [true; true; true; true; true].
Proof. split; reflexivity. Qed.

Lemma missingFields_spec (body : RequestBody) :
  missingFields body = true <->
  toBoolean (bodyPrompt body) = false \/ toBoolean (bodyLabItem body) = false \/
  toBoolean (bodyTeamName body) = false.
Proof.
  unfold missingFields.
  destruct (toBoolean (bodyPrompt body)), (toBoolean (bodyLabItem body)),
    (toBoolean (bodyTeamName body)); cbn; intuition congruence.
Qed.

(** The conversion to a string throws for the values that do not convert,
    and for no other. *)
Lemma ToString_converts numberToString v :
  converts v = true -> exists text, ToString numberToString v = Returned text.
Proof.
  destruct v as [| |[]| | |[text|]]; intros H; try discriminate H;
    eexists; reflexivity.
Qed.

Lemma ToString_throws numberToString v :
  converts v = false -> ToString numberToString v = Thrown conversionError.
Proof. destruct v as [| |[]| | |[text|]]; intros H; try discriminate H; reflexivity. Qed.

Lemma fieldsConvert_spec (body : RequestBody) :
  fieldsConvert body = true <->
  converts (bodyTeamName body) = true /\ converts (bodyPrompt body) = true /\
  converts (bodyLabItem body) = true.
Proof. unfold fieldsConvert. rewrite !andb_true_iff. tauto. Qed.

Ltac step_run :=
  cbn -[str includes VariantA.evaluatePrompt VariantB.evaluatePrompt
        ClipTop.score ClipAvg.finalScore ClipCopy.explain CloudinaryCopy.explain
        Num.ofZ statusText orElse conversionError ClipAvg.readError].

Ltac show_run := step_run; reflexivity.

Ltac settle_run := step_run; eexists _, _; repeat split; reflexivity.

(** Splits on whether the conversion of [v] to a string throws, and puts
    the outcome in the place of the conversion. *)
Ltac split_conversion nts v :=
  let C := fresh "C" in
  let E := fresh "E" in
  let text := fresh "text" in
  destruct (converts v) eqn:C;
  [ destruct (ToString_converts nts v C) as [text E]
  | pose proof (ToString_throws nts v C) as E ];
  rewrite ?E.

(** Puts the texts of the three fields in the place of their conversions,
    when they convert. *)
Ltac use_conversions nts body H :=
  let C1 := fresh "C" in
  let C2 := fresh "C" in
  let C3 := fresh "C" in
  apply fieldsConvert_spec in H as (C1 & C2 & C3);
  let t1 := fresh "teamText" in
  let t2 := fresh "promptText" in
  let t3 := fresh "labItemText" in
  let E1 := fresh "E" in
  let E2 := fresh "E" in
  let E3 := fresh "E" in
  destruct (ToString_converts nts (bodyTeamName body) C1) as [t1 E1];
  destruct (ToString_converts nts (bodyPrompt body) C2) as [t2 E2];
  destruct (ToString_converts nts (bodyLabItem body) C3) as [t3 E3];
  rewrite ?E1, ?E2, ?E3.

(** C8.  The response to a request with a missing (absent or falsy) prompt,
    lab item or team name, copy by copy.  No copy calls an external
    service.  The copy "FINAL FIXED VERSION v2" checks the fields first and
    answers 400 with [success: false], whatever the body holds.  The
    penalty copy and the copy "BULLETPROOF VERSION" first write the team
    name, the prompt and the lab item to the console, each in a template
    literal: they answer 400 when the three fields convert to strings, and
    500 with the message of the TypeError when one of them is an object
    whose conversion throws. *)
Theorem missing_field_response_by_copy
    (toLowerCase : jsstring -> jsstring) (numberToString : Num.number -> jsstring)
    (world : World) (hfConfigured : bool) (body : RequestBody) :
  missingFields body = true ->
  (ClipCopy.handler numberToString world body
   = ([Respond 400
         (FailureBody (str "Missing required fields: prompt, labItem, or teamName"))],
      Returned tt) /\
   responsesOf (PenaltyCopy.handler toLowerCase numberToString world body)
   = (if fieldsConvert body
      then [Respond 400 (FailureBody (str "Missing required fields"))]
      else [Respond 500 (FailureBody conversionError)]) /\
   responsesOf (BulletproofCopy.handler toLowerCase numberToString world hfConfigured body)
   = (if fieldsConvert body
      then [Respond 400 (FailureBody (str "Missing required fields"))]
      else [Respond 500 (FailureBody conversionError)])) /\
  (externalCallsOf (PenaltyCopy.handler toLowerCase numberToString world body) = [] /\
   externalCallsOf
     (BulletproofCopy.handler toLowerCase numberToString world hfConfigured body) = []).
Proof.
  intros H.
  unfold responsesOf, externalCallsOf, ClipCopy.handler, PenaltyCopy.handler,
    BulletproofCopy.handler, logTemplate, template, fieldsConvert.
  rewrite H.
  split; [split; [reflexivity|]|];
    split_conversion numberToString (bodyTeamName body);
    try (split; show_run);
    split_conversion numberToString (bodyPrompt body);
    try (split; show_run);
    split_conversion numberToString (bodyLabItem body);
    split; show_run.
Qed.

Lemma missing_field_response_by_copy_witness :
  missingFields unprintableTeamBody = true /\
  ClipCopy.handler sampleNumberToString sampleWorld unprintableTeamBody
  = ([Respond 400
        (FailureBody (str "Missing required fields: prompt, labItem, or teamName"))],
     Returned tt) /\
  PenaltyCopy.handler toLowerCaseAscii sampleNumberToString sampleWorld
    unprintableTeamBody
  = ([ConsoleLine; ConsoleLine;
      Respond 500 (FailureBody (str "Cannot convert object to primitive value"))],
     Returned tt) /\
  responsesOf (PenaltyCopy.handler toLowerCaseAscii sampleNumberToString sampleWorld
                 unprintableTeamBody)
  = [Respond 500 (FailureBody conversionError)].
Proof.
  split; [reflexivity|]. split; [reflexivity|]. split; [reflexivity|].
  apply (missing_field_response_by_copy toLowerCaseAscii sampleNumberToString
           sampleWorld true unprintableTeamBody eq_refl).
Defined.

(** When the fields that are there convert to strings, as strings, numbers
    and booleans do, every copy rejects the request with 400, after console
    lines only. *)
Lemma missing_field_rejected_when_fields_convert
    (toLowerCase : jsstring -> jsstring) (numberToString : Num.number -> jsstring)
    (world : World) (hfConfigured : bool) (body : RequestBody) :
  missingFields body = true ->
  fieldsConvert body = true ->
  PenaltyCopy.handler toLowerCase numberToString world body
  = (repeat ConsoleLine 5
       ++ [Respond 400 (FailureBody (str "Missing required fields"))],
     Returned tt) /\
  BulletproofCopy.handler toLowerCase numberToString world hfConfigured body
  = (repeat ConsoleLine 6
       ++ [Respond 400 (FailureBody (str "Missing required fields"))],
     Returned tt).
Proof.
  intros H Hc.
  unfold PenaltyCopy.handler, BulletproofCopy.handler, logTemplate, template.
  rewrite H. use_conversions numberToString body Hc.
  split; reflexivity.
Qed.

(** With the three fields present and convertible, every copy goes on to
    the image service: the first event that is not a console line is the
    request to it. *)
Lemma present_fields_reach_image_service
    (toLowerCase : jsstring -> jsstring) (numberToString : Num.number -> jsstring)
    (world : World) (body : RequestBody) :
  missingFields body = false ->
  fieldsConvert body = true ->
  (exists rest, trace (ClipCopy.handler numberToString world body)
                = repeat ConsoleLine 5 ++ ImageRequest (bodyPrompt body) :: rest) /\
  (exists rest, trace (PenaltyCopy.handler toLowerCase numberToString world body)
                = repeat ConsoleLine 7 ++ ImageRequest (bodyPrompt body) :: rest) /\
  (exists rest, trace (BulletproofCopy.handler toLowerCase numberToString world true body)
                = repeat ConsoleLine 7 ++ ImageRequest (bodyPrompt body) :: rest).
Proof.
  intros H Hc.
  unfold ClipCopy.handler, PenaltyCopy.handler, BulletproofCopy.handler,
    ClipCopy.generateImage, PenaltyCopy.generateImage, BulletproofCopy.generateImage,
    ClipCopy.evaluateWithCLIP, logTemplate, template.
  rewrite H. use_conversions numberToString body Hc.
  repeat split.
  - destruct (imageService world (bodyPrompt body)) as [m|st tx|b64];
      step_run; [eexists; reflexivity ..|].
    destruct (clipService world b64 (bodyLabItem body)); step_run;
      eexists; reflexivity.
  - destruct (imageService world (bodyPrompt body)) as [m|st tx|b64];
      step_run.
    + destruct (includes m _); eexists; reflexivity.
    + destruct (includes _ _); eexists; reflexivity.
    + unfold PenaltyCopy.evaluatePrompt, callScorer.
      destruct (bodyPrompt body); step_run; try (eexists; reflexivity).
      destruct (bodyLabItem body); step_run; eexists; reflexivity.
  - destruct (imageService world (bodyPrompt body)) as [m|st tx|b64];
      step_run.
    + destruct (includes m _); eexists; reflexivity.
    + destruct (includes _ _); eexists; reflexivity.
    + unfold BulletproofCopy.evaluatePrompt, callScorer.
      destruct (bodyPrompt body); step_run; try (eexists; reflexivity).
      destruct (bodyLabItem body); step_run; eexists; reflexivity.
Qed.

(** ** The CLIP score derivation *)

Lemma mul_comm (x y : Num.number) : Num.mul x y = Num.mul y x.
Proof.
  unfold Num.mul.
  destruct x as [sx|sx| |sx mx ex], y as [sy|sy| |sy my ey]; cbn [SFmul];
    try reflexivity; try (now rewrite xorb_comm).
  now rewrite xorb_comm, Pos.mul_comm, Z.add_comm.
Qed.

Lemma SFcompare_antisym (x y : spec_float) :
  SFcompare x y = option_map CompOpp (SFcompare y x).
Proof.
  destruct x as [sx|sx| |sx mx ex], y as [sy|sy| |sy my ey]; cbn;
    try reflexivity;
    try (destruct sx; reflexivity);
    try (destruct sy; reflexivity);
    try (destruct sx, sy; reflexivity).
  destruct sx, sy; try reflexivity;
    rewrite (Z.compare_antisym ey ex);
    destruct (ey ?= ex); cbn; try reflexivity;
    rewrite (Pos.compare_cont_antisym my mx Eq); cbn;
    now rewrite ?CompOpp_involutive.
Qed.

Lemma SFcompare_finite (s1 s2 : bool) (m1 m2 : positive) (e1 e2 : Z) :
  exists c, SFcompare (S754_finite s1 m1 e1) (S754_finite s2 m2 e2) = Some c.
Proof. cbn. eexists. reflexivity. Qed.

(** [Math.max(0, Math.min(100, x))] is NaN for NaN and a number of
    [0,100] for every other [x]. *)
Lemma clampNumber_range (x : Num.number) :
  Num.isNaN (clampNumber x) = Num.isNaN x /\
  (Num.isNaN x || inPercentRange (clampNumber x) = true).
Proof.
  destruct x as [s|s| |s m e].
  - destruct s; split; reflexivity.
  - destruct s; split; reflexivity.
  - split; reflexivity.
  - destruct s; [split; reflexivity|].
    set (x := S754_finite false m e).
    assert (Hmin : Num.min (Num.ofZ 100) x
                   = if SFltb (Num.ofZ 100) x then Num.ofZ 100 else x).
    { unfold Num.min. change (Num.isNaN (Num.ofZ 100) || Num.isNaN x) with false.
      cbv iota. destruct (SFltb (Num.ofZ 100) x); [reflexivity|].
      destruct (SFltb x (Num.ofZ 100)); reflexivity. }
    unfold clampNumber. rewrite Hmin.
    destruct (SFltb (Num.ofZ 100) x) eqn:L; [split; reflexivity|].
    assert (Hmax : Num.max Num.zero x = x) by reflexivity.
    rewrite Hmax. split; [reflexivity|].
    change (Num.isNaN x) with false. cbn [orb].
    unfold inPercentRange.
    change (SFleb Num.zero x) with true. cbn [andb].
    unfold SFleb. rewrite SFcompare_antisym.
    unfold SFltb in L.
    destruct (SFcompare_finite false false 7036874417766400 m (-46) e) as [c Hc].
    change (S754_finite false 7036874417766400 (-46)) with (Num.ofZ 100) in Hc.
    fold x in Hc. rewrite Hc in L |- *.
    destruct c; [reflexivity|discriminate L|reflexivity].
Qed.

(** Rounding a non-negative mantissa never gives NaN. *)
Lemma shr_1_nonneg mrs : 0 <= shr_m mrs -> 0 <= shr_m (shr_1 mrs).
Proof.
  destruct mrs as [m r s]. cbn [shr_m].
  destruct m as [|p|p]; [cbn; lia | destruct p; cbn; lia | lia].
Qed.

Lemma iter_pos_shr_1_nonneg (n : positive) mrs :
  0 <= shr_m mrs -> 0 <= shr_m (iter_pos shr_1 n mrs).
Proof.
  revert mrs. induction n as [n IH|n IH|]; intros mrs H; cbn [iter_pos].
  - apply IH, IH, shr_1_nonneg, H.
  - apply IH, IH, H.
  - apply shr_1_nonneg, H.
Qed.

Lemma shr_fexp_nonneg prec emax m e l :
  0 <= m -> 0 <= shr_m (fst (shr_fexp prec emax m e l)).
Proof.
  intros H. unfold shr_fexp, shr.
  assert (H0 : 0 <= shr_m (shr_record_of_loc m l)).
  { destruct l as [|[]]; exact H. }
  destruct (fexp prec emax (Zdigits2 m + e) - e); cbn [fst]; try exact H0.
  apply iter_pos_shr_1_nonneg, H0.
Qed.

Lemma round_nearest_even_nonneg m l : 0 <= m -> 0 <= round_nearest_even m l.
Proof.
  intros H. unfold round_nearest_even.
  destruct l as [|[]]; try exact H; [destruct (Z.even m)|]; lia.
Qed.

Lemma binary_round_aux_not_nan prec emax s m e l :
  0 <= m -> Num.isNaN (binary_round_aux prec emax s m e l) = false.
Proof.
  intros H. unfold binary_round_aux.
  pose proof (shr_fexp_nonneg prec emax m e l H) as H1.
  destruct (shr_fexp prec emax m e l) as [mrs' e']. cbn [fst] in H1.
  pose proof (shr_fexp_nonneg prec emax _ e' loc_Exact
                (round_nearest_even_nonneg _ (loc_of_shr_record mrs') H1)) as H2.
  destruct (shr_fexp prec emax (round_nearest_even (shr_m mrs') (loc_of_shr_record mrs'))
              e' loc_Exact) as [mrs'' e''].
  cbn [fst] in H2.
  destruct (shr_m mrs'') as [|p|p]; [reflexivity| |lia].
  destruct (e'' <=? emax - prec); reflexivity.
Qed.

Lemma binary_round_not_nan prec emax s m e :
  Num.isNaN (binary_round prec emax s m e) = false.
Proof.
  unfold binary_round.
  destruct (shl_align m e (fexp prec emax (Z.pos (digits2_pos m) + e))) as [mz ez].
  apply binary_round_aux_not_nan. lia.
Qed.

Lemma ofZ_not_nan n : Num.isNaN (Num.ofZ n) = false.
Proof.
  unfold Num.ofZ, binary_normalize.
  destruct n; [reflexivity | apply binary_round_not_nan ..].
Qed.

Lemma mul_finite_not_nan x y :
  finiteNumber x = true -> finiteNumber y = true -> Num.isNaN (Num.mul x y) = false.
Proof.
  destruct x as [sx|sx| |sx mx ex], y as [sy|sy| |sy my ey];
    try discriminate; intros _ _; try reflexivity.
  apply binary_round_aux_not_nan. lia.
Qed.

Lemma sub_finite_not_nan x y :
  finiteNumber x = true -> Num.isNaN y = false -> Num.isNaN (Num.sub x y) = false.
Proof.
  destruct x as [sx|sx| |sx mx ex], y as [sy|sy| |sy my ey];
    try discriminate; intros _ _; try reflexivity.
  - destruct sx, sy; reflexivity.
  - unfold Num.sub, SFsub, binary_normalize.
    match goal with |- context [match ?z with Z0 => _ | Zpos _ => _ | Zneg _ => _ end] =>
      destruct z end; [reflexivity | apply binary_round_not_nan ..].
Qed.

Lemma mul_not_nan_finite x y :
  Num.isNaN x = false -> y = Num.ofZ 100 -> Num.isNaN (Num.mul x y) = false.
Proof.
  intros Hx ->.
  change (Num.ofZ 100) with (S754_finite false 7036874417766400 (-46)).
  destruct x as [sx|sx| |sx mx ex]; try discriminate Hx; try reflexivity.
  apply binary_round_aux_not_nan. lia.
Qed.

Lemma round_not_nan x : Num.isNaN x = false -> Num.isNaN (Num.round x) = false.
Proof.
  destruct x as [sx|sx| |sx mx ex]; intros H; try exact H.
  unfold Num.round. destruct (0 <=? ex); [exact H|].
  match goal with |- context [if ?c then _ else _] => destruct c end;
    [reflexivity | apply ofZ_not_nan].
Qed.

Lemma scoreOrZero_finite result i :
  noInfinity result = true -> finiteNumber (scoreOrZero result i) = true.
Proof.
  unfold noInfinity, scoreOrZero. intros H.
  destruct (nth_error (entriesOf result) i) as [e|] eqn:E; [|reflexivity].
  apply nth_error_In in E.
  pose proof (proj1 (forallb_forall _ _) H e E) as He. cbn beta in He.
  destruct (entryScore e) as [x|]; [|reflexivity].
  destruct x as [sx|sx| |sx mx ex]; try reflexivity. discriminate He.
Qed.

(** Shifts and digit counts in the rounding of a product. *)
Lemma pow2_xO (p : positive) : 2 ^ Z.pos p~0 = 2 ^ Z.pos p * 2 ^ Z.pos p.
Proof. change (Z.pos p~0) with (2 * Z.pos p). apply Z.pow_twice_r. Qed.

Lemma pow2_xI (p : positive) : 2 ^ Z.pos p~1 = 2 * (2 ^ Z.pos p * 2 ^ Z.pos p).
Proof.
  change (Z.pos p~1) with (2 * Z.pos p + 1).
  rewrite Z.pow_add_r by lia.
  rewrite Z.pow_twice_r. change (2 ^ 1) with 2. lia.
Qed.

Lemma shr_1_halves mrs : 0 <= shr_m mrs -> 2 * shr_m (shr_1 mrs) <= shr_m mrs.
Proof.
  destruct mrs as [m r s]. cbn [shr_m].
  destruct m as [|p|p]; [cbn; lia | destruct p; cbn; lia | lia].
Qed.

Lemma iter_pos_shr_1_bound (p : positive) mrs :
  0 <= shr_m mrs ->
  shr_m (iter_pos shr_1 p mrs) * 2 ^ Z.pos p <= shr_m mrs.
Proof.
  revert mrs. induction p as [p IH|p IH|]; intros mrs H; cbn [iter_pos].
  - pose proof (shr_1_halves mrs H) as H1.
    pose proof (shr_1_nonneg mrs H) as N1.
    pose proof (IH _ N1) as H2.
    pose proof (iter_pos_shr_1_nonneg p _ N1) as N2.
    pose proof (IH _ N2) as H3.
    pose proof (iter_pos_shr_1_nonneg p _ N2) as N3.
    rewrite pow2_xI.
    assert (0 < 2 ^ Z.pos p) by (apply Z.pow_pos_nonneg; lia).
    nia.
  - pose proof (IH _ H) as H2.
    pose proof (iter_pos_shr_1_nonneg p _ H) as N2.
    pose proof (IH _ N2) as H3.
    pose proof (iter_pos_shr_1_nonneg p _ N2) as N3.
    rewrite pow2_xO.
    assert (0 < 2 ^ Z.pos p) by (apply Z.pow_pos_nonneg; lia).
    nia.
  - pose proof (shr_1_halves mrs H). change (2 ^ 1) with 2. lia.
Qed.

Lemma shr_fexp_snd prec emax m e l :
  snd (shr_fexp prec emax m e l) = Z.max e (fexp prec emax (Zdigits2 m + e)).
Proof.
  unfold shr_fexp, shr.
  destruct (fexp prec emax (Zdigits2 m + e) - e) eqn:E; cbn [snd]; lia.
Qed.

Lemma shr_m_record_of_loc m l : shr_m (shr_record_of_loc m l) = m.
Proof. destruct l as [|[]]; reflexivity. Qed.

(** The mantissa left by a shift of at least [k] binary places. *)
Lemma shr_fexp_fst_bound prec emax m e l k :
  0 <= m -> 0 <= k ->
  e + k <= fexp prec emax (Zdigits2 m + e) ->
  shr_m (fst (shr_fexp prec emax m e l)) * 2 ^ k <= m.
Proof.
  intros Hm Hk Hs. unfold shr_fexp, shr.
  destruct (fexp prec emax (Zdigits2 m + e) - e) as [|p|p] eqn:E; cbn [fst].
  - rewrite shr_m_record_of_loc. assert (k = 0) by lia. subst k. lia.
  - pose proof (iter_pos_shr_1_bound p (shr_record_of_loc m l)) as H.
    rewrite shr_m_record_of_loc in H. specialize (H Hm).
    pose proof (iter_pos_shr_1_nonneg p (shr_record_of_loc m l)) as N.
    rewrite shr_m_record_of_loc in N. specialize (N Hm).
    assert (2 ^ k <= 2 ^ Z.pos p) by (apply Z.pow_le_mono_r; lia).
    assert (0 < 2 ^ k) by (apply Z.pow_pos_nonneg; lia).
    nia.
  - lia.
Qed.

Lemma digits2_pos_upper (p : positive) : Z.pos p < 2 ^ Z.pos (digits2_pos p).
Proof.
  induction p as [p IH|p IH|]; cbn [digits2_pos];
    rewrite ?Pos2Z.inj_succ, ?Z.pow_succ_r by lia; lia.
Qed.

Lemma digits2_pos_le (p : positive) (k : Z) :
  0 <= k -> Z.pos p < 2 ^ k -> Z.pos (digits2_pos p) <= k.
Proof.
  revert k. induction p as [p IH|p IH|]; intros k Hk H; cbn [digits2_pos].
  - assert (k <> 0) by (intros ->; cbn in H; lia).
    replace k with (Z.succ (k - 1)) in H by lia.
    rewrite Z.pow_succ_r in H by lia.
    rewrite Pos2Z.inj_succ. specialize (IH (k - 1)). lia.
  - assert (k <> 0) by (intros ->; cbn in H; lia).
    replace k with (Z.succ (k - 1)) in H by lia.
    rewrite Z.pow_succ_r in H by lia.
    rewrite Pos2Z.inj_succ. specialize (IH (k - 1)). lia.
  - assert (k <> 0) by (intros ->; cbn in H; lia). lia.
Qed.

Lemma Zdigits2_le (m k : Z) : 0 <= m -> 0 <= k -> m < 2 ^ k -> Zdigits2 m <= k.
Proof.
  intros Hm Hk H. destruct m as [|p|p]; cbn [Zdigits2]; [lia| |lia].
  now apply digits2_pos_le.
Qed.

Lemma round_nearest_even_le m l : round_nearest_even m l <= m + 1.
Proof. unfold round_nearest_even. destruct l as [|[]]; [|destruct (Z.even m)| |]; lia. Qed.

Lemma digits2_pos_times_half (m : positive) :
  Z.pos (digits2_pos (m * 4503599627370496)) = Z.pos (digits2_pos m) + 52.
Proof.
  change 4503599627370496%positive
    with (Pos.iter xO 1%positive 52).
  cbn [Pos.iter].
  repeat rewrite Pos.mul_xO_r. rewrite Pos.mul_1_r.
  cbn [digits2_pos]. lia.
Qed.

(** Half of a finite double is a finite double or zero: the product does
    not overflow. *)
Lemma mul_half_finite (u : Num.number) :
  finiteDouble u = true -> finiteNumber (Num.mul u (Num.decimal 1 2)) = true.
Proof.
  change (Num.decimal 1 2) with (S754_finite false 4503599627370496 (-53)).
  destruct u as [s|s| |s m e]; try discriminate; [reflexivity|].
  cbn [finiteDouble]. unfold bounded, canonical_mantissa. intros H.
  apply andb_true_iff in H as [Hc He].
  apply Z.eqb_eq in Hc. apply Z.leb_le in He.
  unfold fexp, emin in Hc.
  pose proof (digits2_pos_upper m) as Hu.
  assert (Hd : Z.pos (digits2_pos m) <= 53) by lia.
  assert (Hm : Z.pos m < 2 ^ 53).
  { eapply Z.lt_le_trans; [exact Hu|]. apply Z.pow_le_mono_r; lia. }
  unfold Num.mul, SFmul, binary_round_aux.
  set (M := Z.pos (m * 4503599627370496)).
  set (E := e + -53).
  assert (HD : Zdigits2 M = Z.pos (digits2_pos m) + 52).
  { unfold M. cbn [Zdigits2]. apply digits2_pos_times_half. }
  pose proof (shr_fexp_snd 53 1024 M E loc_Exact) as S1.
  pose proof (shr_fexp_nonneg 53 1024 M E loc_Exact ltac:(unfold M; lia)) as N1.
  pose proof (shr_fexp_fst_bound 53 1024 M E loc_Exact 52
                ltac:(unfold M; lia) ltac:(lia)) as B1.
  rewrite HD in S1, B1. unfold fexp, emin in S1, B1.
  specialize (B1 ltac:(unfold E; lia)).
  destruct (shr_fexp 53 1024 M E loc_Exact) as [mrs' e'].
  cbn [fst snd] in S1, N1, B1.
  assert (Hr : shr_m mrs' <= Z.pos m).
  { unfold M in B1. rewrite Pos2Z.inj_mul in B1.
    change (Z.pos 4503599627370496) with (2 ^ 52) in B1.
    assert (0 < 2 ^ 52) by reflexivity. nia. }
  set (m1 := round_nearest_even (shr_m mrs') (loc_of_shr_record mrs')).
  pose proof (round_nearest_even_le (shr_m mrs') (loc_of_shr_record mrs')) as L1.
  pose proof (round_nearest_even_nonneg _ (loc_of_shr_record mrs') N1) as N1'.
  fold m1 in L1, N1'.
  assert (D1 : Zdigits2 m1 <= 54).
  { apply Zdigits2_le; [exact N1' | lia |].
    change (2 ^ 54) with (2 * 2 ^ 53). lia. }
  pose proof (shr_fexp_snd 53 1024 m1 e' loc_Exact) as S2.
  pose proof (shr_fexp_nonneg 53 1024 m1 e' loc_Exact N1') as N2.
  unfold fexp, emin in S2.
  destruct (shr_fexp 53 1024 m1 e' loc_Exact) as [mrs'' e''].
  cbn [fst snd] in S2, N2.
  destruct (shr_m mrs'') as [|q|q]; [reflexivity| |lia].
  assert (He'' : e'' <= 1024 - 53) by (unfold E in S1; lia).
  apply Z.leb_le in He''. rewrite He''. reflexivity.
Qed.

(** Sums and quotients of numbers that are not NaN. *)
Lemma add_finite_not_nan x y :
  Num.isNaN x = false -> finiteNumber y = true -> Num.isNaN (Num.add x y) = false.
Proof.
  destruct x as [sx|sx| |sx mx ex], y as [sy|sy| |sy my ey];
    try discriminate; intros _ _; try reflexivity.
  - destruct sx, sy; reflexivity.
  - unfold Num.add, SFadd, binary_normalize.
    match goal with |- context [match ?z with Z0 => _ | Zpos _ => _ | Zneg _ => _ end] =>
      destruct z end; [reflexivity | apply binary_round_not_nan ..].
Qed.

Lemma div_by_three_not_nan x :
  Num.isNaN x = false -> Num.isNaN (Num.div x (Num.ofZ 3)) = false.
Proof.
  change (Num.ofZ 3) with (S754_finite false 6755399441055744 (-51)).
  destruct x as [sx|sx| |sx mx ex]; intros H; try discriminate H; try reflexivity.
  unfold Num.div, SFdiv, SFdiv_core_binary.
  match goal with |- context [Z.div_eucl ?a ?b] =>
    pose proof (Z_div_mod a b ltac:(reflexivity)) as Hq;
    assert (Ha : 0 <= a) by (match goal with |- 0 <= match ?s with _ => _ end =>
                               destruct s; try lia; apply Z.shiftl_nonneg; lia end);
    destruct (Z.div_eucl a b) as [q r]
  end.
  apply binary_round_aux_not_nan. nia.
Qed.

Lemma sub_not_nan_finite x y :
  Num.isNaN x = false -> finiteNumber y = true -> Num.isNaN (Num.sub x y) = false.
Proof.
  destruct x as [sx|sx| |sx mx ex], y as [sy|sy| |sy my ey];
    try discriminate; intros _ _; try reflexivity.
  - destruct sx, sy; reflexivity.
  - unfold Num.sub, SFsub, binary_normalize.
    match goal with |- context [match ?z with Z0 => _ | Zpos _ => _ | Zneg _ => _ end] =>
      destruct z end; [reflexivity | apply binary_round_not_nan ..].
Qed.

Lemma finiteDouble_finiteNumber x : finiteDouble x = true -> finiteNumber x = true.
Proof. destruct x; intros H; try discriminate H; reflexivity. Qed.

(** What the code reads at an index is a finite double when the
    confidences are. *)
Lemma scoreOrZero_finiteDouble result i :
  finiteConfidences (entriesOf result) = true ->
  finiteDouble (scoreOrZero result i) = true.
Proof.
  unfold finiteConfidences, scoreOrZero. intros H.
  destruct (nth_error (entriesOf result) i) as [e|] eqn:E; [|reflexivity].
  apply nth_error_In in E.
  pose proof (proj1 (forallb_forall _ _) H e E) as He. cbn beta in He.
  destruct (entryScore e) as [x|]; [|reflexivity].
  destruct (Num.truthy x); [exact He | reflexivity].
Qed.

(** ** Equality up to the sign of a zero

    [score || 0] turns [-0] into [0].  The arithmetic of the scorers keeps
    two values that differ only in the sign of a zero that close, and the
    clamp makes them equal. *)

Lemma sameUpToZeroSign_refl x : sameUpToZeroSign x x.
Proof. now left. Qed.

Lemma sub_sameUpToZeroSign x x' y y' :
  sameUpToZeroSign x x' -> sameUpToZeroSign y y' ->
  sameUpToZeroSign (Num.sub x y) (Num.sub x' y').
Proof.
  intros [->|(Hx & Hx' & Nx & Nx')] [->|(Hy & Hy' & Ny & Ny')].
  - now left.
  - destruct y as [[]|[]| |[] ? ?], y' as [[]|[]| |[] ? ?]; try discriminate;
      destruct x' as [[]|[]| |[] ? ?];
      first [ left; reflexivity | right; repeat split; reflexivity ].
  - destruct x as [[]|[]| |[] ? ?], x' as [[]|[]| |[] ? ?]; try discriminate;
      destruct y' as [[]|[]| |[] ? ?];
      first [ left; reflexivity | right; repeat split; reflexivity ].
  - destruct x as [[]|[]| |[] ? ?], x' as [[]|[]| |[] ? ?]; try discriminate;
      destruct y as [[]|[]| |[] ? ?], y' as [[]|[]| |[] ? ?]; try discriminate;
      first [ left; reflexivity | right; repeat split; reflexivity ].
Qed.

Lemma add_sameUpToZeroSign x x' y y' :
  sameUpToZeroSign x x' -> sameUpToZeroSign y y' ->
  sameUpToZeroSign (Num.add x y) (Num.add x' y').
Proof.
  intros [->|(Hx & Hx' & Nx & Nx')] [->|(Hy & Hy' & Ny & Ny')].
  - now left.
  - destruct y as [[]|[]| |[] ? ?], y' as [[]|[]| |[] ? ?]; try discriminate;
      destruct x' as [[]|[]| |[] ? ?];
      first [ left; reflexivity | right; repeat split; reflexivity ].
  - destruct x as [[]|[]| |[] ? ?], x' as [[]|[]| |[] ? ?]; try discriminate;
      destruct y' as [[]|[]| |[] ? ?];
      first [ left; reflexivity | right; repeat split; reflexivity ].
  - destruct x as [[]|[]| |[] ? ?], x' as [[]|[]| |[] ? ?]; try discriminate;
      destruct y as [[]|[]| |[] ? ?], y' as [[]|[]| |[] ? ?]; try discriminate;
      first [ left; reflexivity | right; repeat split; reflexivity ].
Qed.

Lemma mul_sameUpToZeroSign_l x x' c :
  sameUpToZeroSign x x' -> sameUpToZeroSign (Num.mul x c) (Num.mul x' c).
Proof.
  intros [->|(Hx & Hx' & Nx & Nx')]; [now left|].
  destruct x as [[]|[]| |[] ? ?], x' as [[]|[]| |[] ? ?]; try discriminate;
    destruct c as [[]|[]| |[] ? ?];
    first [ left; reflexivity | right; repeat split; reflexivity ].
Qed.

Lemma div_sameUpToZeroSign_l x x' c :
  sameUpToZeroSign x x' -> sameUpToZeroSign (Num.div x c) (Num.div x' c).
Proof.
  intros [->|(Hx & Hx' & Nx & Nx')]; [now left|].
  destruct x as [[]|[]| |[] ? ?], x' as [[]|[]| |[] ? ?]; try discriminate;
    destruct c as [[]|[]| |[] ? ?];
    first [ left; reflexivity | right; repeat split; reflexivity ].
Qed.

Lemma round_sameUpToZeroSign x x' :
  sameUpToZeroSign x x' -> sameUpToZeroSign (Num.round x) (Num.round x').
Proof.
  intros [->|(Hx & Hx' & Nx & Nx')]; [now left|].
  destruct x as [[]|[]| |[] ? ?], x' as [[]|[]| |[] ? ?]; try discriminate;
    right; repeat split; reflexivity.
Qed.

Lemma clampNumber_sameUpToZeroSign x x' :
  sameUpToZeroSign x x' -> clampNumber x = clampNumber x'.
Proof.
  intros [->|(Hx & Hx' & Nx & Nx')]; [reflexivity|].
  destruct x as [[]|[]| |[] ? ?], x' as [[]|[]| |[] ? ?]; try discriminate;
    reflexivity.
Qed.

(** What the code reads at an index of a list and the confidence there
    differ at most in the sign of a zero, when the confidence is not NaN. *)
Lemma scoreOrZero_confidence entries i :
  finiteConfidences entries = true ->
  sameUpToZeroSign (scoreOrZero (ResultArray entries) i) (ClipSpec.confidence entries i).
Proof.
  unfold finiteConfidences, scoreOrZero, ClipSpec.confidence. cbn [entriesOf]. intros H.
  destruct (nth_error entries i) as [e|] eqn:E; [|now left].
  apply nth_error_In in E.
  pose proof (proj1 (forallb_forall _ _) H e E) as He. cbn beta in He.
  destruct (entryScore e) as [x|]; [|now left].
  destruct x as [[]|[]| |[] ? ?]; try discriminate He;
    first [ left; reflexivity | right; repeat split; reflexivity ].
Qed.

(** The two derivations of the code equal the worded formulas. *)
Lemma clipTop_formula entries :
  finiteConfidences entries = true ->
  clampNumber
    (Num.round
       (Num.mul
          (Num.sub (scoreOrZero (ResultArray entries) 0)
                   (Num.mul (scoreOrZero (ResultArray entries) 3) (Num.decimal 3 10)))
          (Num.ofZ 100)))
  = ClipSpec.topScore entries.
Proof.
  intros H. unfold ClipSpec.topScore.
  rewrite (mul_comm (Num.decimal 3 10)).
  apply clampNumber_sameUpToZeroSign, round_sameUpToZeroSign,
    mul_sameUpToZeroSign_l, sub_sameUpToZeroSign.
  - apply scoreOrZero_confidence, H.
  - apply mul_sameUpToZeroSign_l, scoreOrZero_confidence, H.
Qed.

Lemma clipAvg_formula entries :
  finiteConfidences entries = true ->
  clampNumber
    (Num.round
       (Num.mul
          (Num.sub (ClipAvg.avgLabScore (ResultArray entries))
                   (Num.mul (ClipAvg.unrelatedScore (ResultArray entries))
                            (Num.decimal 1 2)))
          (Num.ofZ 100)))
  = ClipSpec.avgScore entries.
Proof.
  intros H. unfold ClipSpec.avgScore, ClipAvg.avgLabScore, ClipAvg.unrelatedScore,
    ClipAvg.labItemScore1, ClipAvg.labItemScore2, ClipAvg.labItemScore3.
  rewrite (mul_comm (Num.decimal 1 2)).
  apply clampNumber_sameUpToZeroSign, round_sameUpToZeroSign,
    mul_sameUpToZeroSign_l, sub_sameUpToZeroSign.
  - apply div_sameUpToZeroSign_l, add_sameUpToZeroSign;
      [apply add_sameUpToZeroSign|]; apply scoreOrZero_confidence, H.
  - apply mul_sameUpToZeroSign_l, scoreOrZero_confidence, H.
Qed.

(** Both derivations give a number of [0,100] on finite confidences. *)
Lemma clipTop_value_in_range result :
  finiteConfidences (entriesOf result) = true ->
  inPercentRange
    (clampNumber
       (Num.round
          (Num.mul
             (Num.sub (scoreOrZero result 0)
                      (Num.mul (scoreOrZero result 3) (Num.decimal 3 10)))
             (Num.ofZ 100)))) = true.
Proof.
  intros H.
  match goal with
  | |- inPercentRange (clampNumber ?y) = true =>
      destruct (clampNumber_range y) as [_ Hr];
      assert (Hn : Num.isNaN y = false); [|rewrite Hn in Hr; exact Hr]
  end.
  apply round_not_nan, mul_not_nan_finite; [|reflexivity].
  apply sub_finite_not_nan.
  - apply finiteDouble_finiteNumber, scoreOrZero_finiteDouble, H.
  - apply mul_finite_not_nan; [|reflexivity].
    apply finiteDouble_finiteNumber, scoreOrZero_finiteDouble, H.
Qed.

Lemma clipAvg_value_in_range result :
  finiteConfidences (entriesOf result) = true ->
  inPercentRange
    (clampNumber
       (Num.round
          (Num.mul
             (Num.sub (ClipAvg.avgLabScore result)
                      (Num.mul (ClipAvg.unrelatedScore result) (Num.decimal 1 2)))
             (Num.ofZ 100)))) = true.
Proof.
  intros H.
  match goal with
  | |- inPercentRange (clampNumber ?y) = true =>
      destruct (clampNumber_range y) as [_ Hr];
      assert (Hn : Num.isNaN y = false); [|rewrite Hn in Hr; exact Hr]
  end.
  apply round_not_nan, mul_not_nan_finite; [|reflexivity].
  apply sub_not_nan_finite.
  - unfold ClipAvg.avgLabScore, ClipAvg.labItemScore1, ClipAvg.labItemScore2,
      ClipAvg.labItemScore3.
    apply div_by_three_not_nan, add_finite_not_nan; [apply add_finite_not_nan|];
      try (apply finiteDouble_finiteNumber, scoreOrZero_finiteDouble, H).
    pose proof (finiteDouble_finiteNumber _ (scoreOrZero_finiteDouble result 0 H)) as F.
    destruct (scoreOrZero result 0); try discriminate F; reflexivity.
  - apply mul_half_finite, scoreOrZero_finiteDouble, H.
Qed.

(** C7, as the specification states it, fails in the copies with one top
    score: when the answer is an empty array every entry is missing, so the
    stated formula gives 0, and the code returns its fallback score 50. *)
Lemma clipTop_empty_array_is_fallback :
  ClipTop.score (ResultArray []) = Num.ofZ 50 /\
  ClipSpec.topScore [] = Num.zero /\
  ClipTop.score (ResultArray []) <> ClipSpec.topScore [].
Proof.
  split; [reflexivity|]. split; [reflexivity|].
  intro H. vm_compute in H. discriminate H.
Qed.

(** C7, amended.  For a list of label confidences that are finite numbers
    (a missing entry counts as 0): the copies with one top score compute
    round((result[0].score - 0.3 x unrelatedScore) x 100) clamped to
    [0,100] when the list is not empty, where the unrelated score is the
    fourth entry, and return the fallback score 50 when the list is empty;
    the averaged copy computes
    round((average of the first three scores - 0.5 x unrelatedScore) x 100)
    clamped to [0,100] for every list, where the unrelated score is the
    fifth entry.  Each of these scores is a number of [0,100].  When the
    answer is not a list: the copies with one top score return 50; the
    averaged copy reads an object that is not an array like a list, by its
    keys "0" to "4", finds no score in a number, a string or a boolean and
    returns 0, and throws a TypeError on [null]. *)
Theorem clip_score_formula (entries : list ClipEntry) :
  finiteConfidences entries = true ->
  (ClipTop.score (ResultArray entries)
   = match entries with
     | [] => Num.ofZ 50
     | _ :: _ => ClipSpec.topScore entries
     end /\
   ClipAvg.finalScore (ResultArray entries) = Some (ClipSpec.avgScore entries)) /\
  (inPercentRange (ClipTop.score (ResultArray entries)) = true /\
   inPercentRange (ClipSpec.avgScore entries) = true) /\
  (ClipTop.score (ResultObject entries) = Num.ofZ 50 /\
   ClipTop.score ResultNull = Num.ofZ 50 /\
   ClipTop.score ResultOther = Num.ofZ 50) /\
  (ClipAvg.finalScore (ResultObject entries) = Some (ClipSpec.avgScore entries) /\
   ClipAvg.finalScore ResultOther = Some Num.zero /\
   ClipAvg.finalScore ResultNull = None).
Proof.
  intros H.
  assert (Htop : ClipTop.score (ResultArray entries)
                 = match entries with
                   | [] => Num.ofZ 50
                   | _ :: _ => ClipSpec.topScore entries
                   end).
  { unfold ClipTop.score, ClipTop.labItemScore, ClipTop.unrelatedScore.
    destruct entries as [|e rest] eqn:E; [reflexivity|].
    cbn [ClipTop.isNonEmptyArray]. apply clipTop_formula, H. }
  assert (Havg : ClipAvg.finalScore (ResultArray entries)
                 = Some (ClipSpec.avgScore entries)).
  { unfold ClipAvg.finalScore. cbn [ClipAvg.readable].
    f_equal. apply clipAvg_formula, H. }
  split; [split; assumption|]. split; [split|].
  - unfold ClipTop.score.
    destruct (ClipTop.isNonEmptyArray (ResultArray entries)); [|reflexivity].
    apply clipTop_value_in_range. exact H.
  - rewrite <- (clipAvg_formula entries H).
    apply clipAvg_value_in_range. exact H.
  - split; [repeat split; reflexivity|].
    split; [|split; reflexivity].
    rewrite <- Havg. reflexivity.
Qed.

Lemma clip_score_formula_witness :
  finiteConfidences [entryOf 85 100; entryOf 5 100; entryOf 3 100;
                     mkClipEntry [] (Some (S754_zero true)); entryOf 1 100] = true /\
  ClipTop.score (ResultArray [entryOf 85 100; entryOf 5 100; entryOf 3 100;
                              mkClipEntry [] (Some (S754_zero true)); entryOf 1 100])
  = ClipSpec.topScore [entryOf 85 100; entryOf 5 100; entryOf 3 100;
                       mkClipEntry [] (Some (S754_zero true)); entryOf 1 100] /\
  ClipAvg.finalScore (ResultArray [entryOf 85 100; entryOf 5 100; entryOf 3 100;
                                   mkClipEntry [] (Some (S754_zero true)); entryOf 1 100])
  = Some (ClipSpec.avgScore [entryOf 85 100; entryOf 5 100; entryOf 3 100;
                             mkClipEntry [] (Some (S754_zero true)); entryOf 1 100]).
Proof.
  split; [reflexivity|].
  pose proof (clip_score_formula
                [entryOf 85 100; entryOf 5 100; entryOf 3 100;
                 mkClipEntry [] (Some (S754_zero true)); entryOf 1 100]
                eq_refl) as [[Ht Ha] _].
  split; [exact Ht | exact Ha].
Defined.

(** The two derivations on an answer of five confidences: 83 from the top
    score 0.85 and the fourth entry 0.07, and 31 from the average of 0.85,
    0.05 and 0.03 and the fifth entry 0.01. *)
Example clip_scores_run :
  let result := ResultArray [entryOf 85 100; entryOf 5 100; entryOf 3 100;
                             entryOf 7 100; entryOf 1 100] in
  ClipTop.score result = Num.ofZ 83 /\ ClipAvg.finalScore result = Some (Num.ofZ 31).
Proof. split; vm_compute; reflexivity. Qed.

(** A whole run of the penalty copy on a request that names no forbidden
    word: console lines, the one request to the image service, console
    lines again, and the success response with the score of Variant B. *)
Example penaltyCopy_run :
  trace (PenaltyCopy.handler toLowerCaseAscii sampleNumberToString sampleWorld sampleBody)
  = repeat ConsoleLine 7
      ++ [ImageRequest (JString (str "lab test flask glass vessel"))]
      ++ repeat ConsoleLine 10
      ++ [Respond 200
            (SuccessBody (dataUrl (str "aW1hZ2U=")) (Num.ofZ 70) VariantB.goodText
               (JString (str "Team 1")) (JString (str "beaker"))
               (str "Stable Diffusion XL"))].
Proof. vm_compute. reflexivity. Qed.

(** A prompt that is truthy but not a string passes the presence check,
    reaches the image service, and then makes the scorer throw: the copy
    answers 500 with the message of the TypeError. *)
Example penaltyCopy_non_string_prompt :
  trace (PenaltyCopy.handler toLowerCaseAscii sampleNumberToString sampleWorld
           (mkRequestBody (JNumber (Num.ofZ 7))
                          (JString (str "beaker")) (JString (str "Team 1"))))
  = repeat ConsoleLine 7
      ++ [ImageRequest (JNumber (Num.ofZ 7))]
      ++ repeat ConsoleLine 5
      ++ [Respond 500 (FailureBody (str "prompt.toLowerCase is not a function"))].
Proof. vm_compute. reflexivity. Qed.

(** A team name whose conversion to a string throws, in a complete request:
    the copies that log after the presence check answer 500 with the
    message of the TypeError, and no service is called. *)
Example clipCopy_unprintable_team :
  trace (ClipCopy.handler sampleNumberToString sampleWorld
           (mkRequestBody (JString (str "a flask")) (JString (str "beaker"))
              (JObject None)))
  = [ConsoleLine; Respond 500 (FailureBody conversionError)] /\
  CloudinaryCopy.trace
    (CloudinaryCopy.handler sampleNumberToString
       (mkCloudWorld sampleWorld failingUpload)
       (mkRequestBody (JString (str "a flask")) (JString (str "beaker"))
          (JObject None)))
  = [CloudConsoleLine; CloudRespond 500 (CloudFailure conversionError)].
Proof. split; vm_compute; reflexivity. Qed.

(** The classifier answers [null]: the copy with the upload throws on the
    first read and answers 500, where the copies with one top score fall
    back to 50. *)
Example null_answer_by_copy :
  let world := mkWorld (fun _ => HttpOk (str "aW1hZ2U=")) (fun _ _ => HttpOk ResultNull) 5 in
  cloudResponsesOf
    (CloudinaryCopy.handler sampleNumberToString (mkCloudWorld world failingUpload)
       sampleBody)
  = [CloudRespond 500 (CloudFailure ClipAvg.readError)] /\
  map (fun e => match e with
                | Respond status (SuccessBody _ score _ _ _ _) => Some (status, score)
                | _ => None
                end)
      (responsesOf (ClipCopy.handler sampleNumberToString world sampleBody))
  = [Some (200, Num.ofZ 50)].
Proof. split; vm_compute; reflexivity. Qed.

(** * Further properties of the scorers *)

Lemma toLowerCaseAscii_idempotent (s : jsstring) :
  toLowerCaseAscii (toLowerCaseAscii s) = toLowerCaseAscii s.
Proof.
  unfold toLowerCaseAscii. rewrite map_map. apply map_ext. intros c.
  unfold lowerUnitAscii.
  destruct (N.leb 65 c && N.leb c 90)%bool eqn:E; [|now rewrite E].
  apply andb_true_iff in E as [E1 E2].
  apply N.leb_le in E1, E2.
  destruct (N.leb 65 (c + 32) && N.leb (c + 32) 90)%bool eqn:E'; [|reflexivity].
  apply andb_true_iff in E' as [_ E']. apply N.leb_le in E'. lia.
Qed.

Lemma toLowerCaseAscii_length (s : jsstring) :
  jslength (toLowerCaseAscii s) = jslength s.
Proof. unfold jslength, toLowerCaseAscii. now rewrite length_map. Qed.

(** X1.  On the scoring path of Variant B, with a draw of 0..9, the clamp to
    [30,100] never changes the value: the score is the subtotal plus the
    draw minus 5, and it lies in [45,94]. *)
Theorem variantB_clamp_never_active
    (toLowerCase : jsstring -> jsstring) (rnd : Z) (prompt labItem : jsstring) :
  0 <= rnd <= 9 ->
  VariantB.usedLabItemWord toLowerCase prompt labItem = false ->
  score (VariantB.evaluatePrompt toLowerCase rnd prompt labItem)
  = VariantB.subtotal toLowerCase prompt + rnd - 5 /\
  45 <= score (VariantB.evaluatePrompt toLowerCase rnd prompt labItem) <= 94.
Proof.
  intros Hr Hu. rewrite (variantB_scoring_path _ _ _ _ Hu). cbn [score].
  pose proof (variantB_subtotal_range toLowerCase prompt) as Hs.
  revert Hs. generalize (VariantB.subtotal toLowerCase prompt). intros s Hs.
  unfold clamp. lia.
Qed.

Lemma variantB_clamp_never_active_witness :
  0 <= 9 <= 9 /\
  VariantB.usedLabItemWord toLowerCaseAscii
    (str "lab test flask glass vessel") (str "beaker") = false /\
  45 <= score (VariantB.evaluatePrompt toLowerCaseAscii 9
                 (str "lab test flask glass vessel") (str "beaker")) <= 94.
Proof.
  split; [lia|]. split; [reflexivity|].
  apply (variantB_clamp_never_active toLowerCaseAscii 9
           (str "lab test flask glass vessel") (str "beaker"));
    [lia | reflexivity].
Defined.

(** X2.  In Variant B a prompt of at most 50 code units never gets the
    strong explanation: without a length bonus the score stays at 74 or
    below, under the threshold of 80. *)
Theorem variantB_short_prompt_never_excellent
    (toLowerCase : jsstring -> jsstring) (rnd : Z) (prompt labItem : jsstring) :
  0 <= rnd <= 9 ->
  jslength prompt <= 50 ->
  score (VariantB.evaluatePrompt toLowerCase rnd prompt labItem) <= 74 /\
  explanation (VariantB.evaluatePrompt toLowerCase rnd prompt labItem)
  <> VariantB.excellentText.
Proof.
  intros Hr Hl. unfold VariantB.evaluatePrompt.
  destruct (VariantB.usedLabItemWord toLowerCase prompt labItem);
    cbn [score explanation].
  - split; [lia|]. intro H; discriminate H.
  - assert (Hs : clamp 30 100 (VariantB.subtotal toLowerCase prompt + (rnd - 5)) <= 74).
    { unfold VariantB.subtotal, VariantB.lengthBonus.
      destruct (50 <? jslength prompt) eqn:E1; [apply Z.ltb_lt in E1; lia|].
      destruct (100 <? jslength prompt) eqn:E2; [apply Z.ltb_lt in E2; lia|].
      pose proof (variantB_scienceCount_range toLowerCase prompt) as Hc.
      revert Hc. generalize (VariantB.scienceCount toLowerCase prompt). intros c Hc.
      unfold VariantB.keywordBonus, clamp. lia. }
    split; [exact Hs|].
    revert Hs.
    generalize (clamp 30 100 (VariantB.subtotal toLowerCase prompt + (rnd - 5))).
    intros s Hs. unfold VariantB.explain.
    destruct (80 <=? s) eqn:E; [apply Z.leb_le in E; lia|].
    destruct (60 <=? s); intro H; discriminate H.
Qed.

Lemma variantB_short_prompt_never_excellent_witness :
  0 <= 9 <= 9 /\
  jslength (str "lab test flask glass vessel") <= 50 /\
  score (VariantB.evaluatePrompt toLowerCaseAscii 9
           (str "lab test flask glass vessel") (str "beaker")) <= 74.
Proof.
  split; [lia|]. split; [vm_compute; discriminate|].
  apply (variantB_short_prompt_never_excellent toLowerCaseAscii 9
           (str "lab test flask glass vessel") (str "beaker"));
    [lia | vm_compute; discriminate].
Defined.

(** X3.  In Variant A, with a draw of 0..9, the mention of the lab item
    decides the range of the score: a prompt that mentions it scores in
    [75,100] and always gets the strong explanation; a prompt that does not
    scores in [45,74].  The lower clamp bound 0 is never reached. *)
Theorem variantA_mention_decides_range
    (toLowerCase : jsstring -> jsstring) (rnd : Z) (prompt labItem : jsstring) :
  0 <= rnd <= 9 ->
  if VariantA.mentionsLabItem toLowerCase prompt labItem
  then 75 <= score (VariantA.evaluatePrompt toLowerCase rnd prompt labItem) <= 100 /\
       explanation (VariantA.evaluatePrompt toLowerCase rnd prompt labItem)
       = VariantA.excellentText labItem
  else 45 <= score (VariantA.evaluatePrompt toLowerCase rnd prompt labItem) <= 74.
Proof.
  intros Hr. unfold VariantA.evaluatePrompt. cbn [score explanation].
  unfold VariantA.subtotal, VariantA.mentionBonus.
  pose proof (variantA_scienceCount_range toLowerCase prompt) as Hc.
  revert Hc. generalize (VariantA.scienceCount toLowerCase prompt). intros c Hc.
  destruct (VariantA.mentionsLabItem toLowerCase prompt labItem).
  - assert (H : 75 <= clamp 0 100 (50 + 30 + VariantA.keywordBonus c + (rnd - 5)) <= 100).
    { unfold VariantA.keywordBonus, clamp. lia. }
    split; [exact H|].
    revert H. generalize (clamp 0 100 (50 + 30 + VariantA.keywordBonus c + (rnd - 5))).
    intros s H. unfold VariantA.explain.
    destruct (70 <=? s) eqn:E; [reflexivity|]. apply Z.leb_gt in E. lia.
  - unfold VariantA.keywordBonus, clamp. lia.
Qed.

Lemma variantA_mention_decides_range_witness :
  0 <= 0 <= 9 /\
  75 <= score (VariantA.evaluatePrompt toLowerCaseAscii 0
                 (str "a beaker") (str "Beaker")) <= 100.
Proof.
  split; [lia|].
  pose proof (variantA_mention_decides_range toLowerCaseAscii 0
                (str "a beaker") (str "Beaker") ltac:(lia)) as H.
  apply H.
Defined.

Lemma includes_trans (s p q : jsstring) :
  includes s p = true -> includes p q = true -> includes s q = true.
Proof.
  intros H1 H2.
  apply includes_spec in H1 as (b1 & a1 & ->).
  apply includes_spec in H2 as (b2 & a2 & ->).
  apply includes_spec. exists (b1 ++ b2), (a2 ++ a1).
  now rewrite <- !app_assoc.
Qed.

(** X4.  The keyword "lab" is a substring of the keyword "laboratory", and
    both are in the list: a prompt whose lower-cased text contains
    "laboratory" matches at least two keywords, so its keyword bonus is at
    least 10 in Variant A and at least 8 in Variant B. *)
Theorem laboratory_counts_twice
    (toLowerCase : jsstring -> jsstring) (prompt : jsstring) :
  includes (toLowerCase prompt) (str "laboratory") = true ->
  (2 <= VariantA.scienceCount toLowerCase prompt /\
   10 <= VariantA.keywordBonus (VariantA.scienceCount toLowerCase prompt)) /\
  (2 <= VariantB.scienceCount toLowerCase prompt /\
   8 <= VariantB.keywordBonus (VariantB.scienceCount toLowerCase prompt)).
Proof.
  intros H.
  assert (H' : includes (toLowerCase prompt) (str "lab") = true).
  { apply (includes_trans _ _ _ H). reflexivity. }
  assert (HA : 2 <= VariantA.scienceCount toLowerCase prompt).
  { unfold VariantA.scienceCount, VariantA.matchedKeywords, VariantA.scienceKeywords.
    cbn [map filter]. rewrite H, H'. cbn [List.length].
    rewrite !Nat2Z.inj_succ. apply Z.le_trans with (Z.succ (Z.succ 0)); [lia|].
    apply Zsucc_le_compat, Zsucc_le_compat, Nat2Z.is_nonneg. }
  assert (HB : 2 <= VariantB.scienceCount toLowerCase prompt).
  { unfold VariantB.scienceCount, VariantB.matchedKeywords, VariantB.scienceKeywords.
    cbn [map filter]. rewrite H, H'. cbn [List.length].
    rewrite !Nat2Z.inj_succ. apply Z.le_trans with (Z.succ (Z.succ 0)); [lia|].
    apply Zsucc_le_compat, Zsucc_le_compat, Nat2Z.is_nonneg. }
  revert HA HB.
  generalize (VariantA.scienceCount toLowerCase prompt)
             (VariantB.scienceCount toLowerCase prompt).
  intros a b HA HB. unfold VariantA.keywordBonus, VariantB.keywordBonus.
  repeat split; lia.
Qed.

Lemma laboratory_counts_twice_witness :
  includes (toLowerCaseAscii (str "In the Laboratory")) (str "laboratory") = true /\
  10 <= VariantA.keywordBonus
          (VariantA.scienceCount toLowerCaseAscii (str "In the Laboratory")).
Proof.
  split; [reflexivity|].
  apply (laboratory_counts_twice toLowerCaseAscii (str "In the Laboratory")).
  reflexivity.
Defined.

(** X5.  The scorers look at the prompt only through its lower-cased text
    (and, in Variant B, its length).  When [toLowerCase] is idempotent and
    keeps the length of the prompt, as on ASCII text, scoring the
    lower-cased prompt gives the same result as scoring the prompt, and
    lower-casing the lab item gives the same score. *)
Theorem evaluatePrompt_case_insensitive
    (toLowerCase : jsstring -> jsstring) (rnd : Z) (prompt labItem : jsstring) :
  (forall s, toLowerCase (toLowerCase s) = toLowerCase s) ->
  jslength (toLowerCase prompt) = jslength prompt ->
  VariantA.evaluatePrompt toLowerCase rnd (toLowerCase prompt) labItem
  = VariantA.evaluatePrompt toLowerCase rnd prompt labItem /\
  VariantB.evaluatePrompt toLowerCase rnd (toLowerCase prompt) labItem
  = VariantB.evaluatePrompt toLowerCase rnd prompt labItem /\
  score (VariantA.evaluatePrompt toLowerCase rnd prompt (toLowerCase labItem))
  = score (VariantA.evaluatePrompt toLowerCase rnd prompt labItem) /\
  score (VariantB.evaluatePrompt toLowerCase rnd prompt (toLowerCase labItem))
  = score (VariantB.evaluatePrompt toLowerCase rnd prompt labItem).
Proof.
  intros Hid Hlen.
  unfold VariantA.evaluatePrompt, VariantB.evaluatePrompt, VariantA.subtotal,
    VariantB.subtotal, VariantA.mentionBonus, VariantA.mentionsLabItem,
    VariantB.usedLabItemWord, VariantA.scienceCount, VariantB.scienceCount,
    VariantA.matchedKeywords, VariantB.matchedKeywords, VariantB.lengthBonus.
  rewrite !Hid, Hlen.
  repeat split.
  - destruct (includes (toLowerCase prompt) (toLowerCase labItem)); reflexivity.
Qed.

Lemma evaluatePrompt_case_insensitive_witness :
  (forall s, toLowerCaseAscii (toLowerCaseAscii s) = toLowerCaseAscii s) /\
  jslength (toLowerCaseAscii (str "A Glass FLASK")) = jslength (str "A Glass FLASK") /\
  VariantB.evaluatePrompt toLowerCaseAscii 3 (toLowerCaseAscii (str "A Glass FLASK"))
    (str "Beaker")
  = VariantB.evaluatePrompt toLowerCaseAscii 3 (str "A Glass FLASK") (str "Beaker").
Proof.
  split; [exact toLowerCaseAscii_idempotent|]. split; [reflexivity|].
  apply (evaluatePrompt_case_insensitive toLowerCaseAscii 3
           (str "A Glass FLASK") (str "Beaker") toLowerCaseAscii_idempotent).
  reflexivity.
Defined.

(** The length bonus of Variant B uses strict comparisons: a prompt of
    up to 50 code units gets 0, one of 51 to 100 code units gets 10 and one
    of more than 100 code units gets 20. *)
Lemma variantB_lengthBonus_thresholds (prompt : jsstring) :
  (VariantB.lengthBonus prompt = 0 <-> jslength prompt <= 50) /\
  (VariantB.lengthBonus prompt = 10 <-> 50 < jslength prompt <= 100) /\
  (VariantB.lengthBonus prompt = 20 <-> 100 < jslength prompt).
Proof.
  unfold VariantB.lengthBonus.
  destruct (Z.ltb_spec 50 (jslength prompt)), (Z.ltb_spec 100 (jslength prompt));
    repeat split; intros; lia.
Qed.

Lemma filter_length_mono_In {A} (f g : A -> bool) (l : list A) :
  (forall x, In x l -> f x = true -> g x = true) ->
  (List.length (filter f l) <= List.length (filter g l))%nat.
Proof.
  induction l as [|x l IH]; intros Hfg; cbn [filter]; [lia|].
  assert (IH' : (List.length (filter f l) <= List.length (filter g l))%nat).
  { apply IH. intros y Hy. apply Hfg. now right. }
  destruct (f x) eqn:Ef.
  - rewrite (Hfg x (or_introl eq_refl) Ef). cbn [List.length]. lia.
  - destruct (g x); cbn [List.length]; lia.
Qed.

(** Every keyword of Variant A is a keyword of Variant B. *)
Lemma variantA_keywords_in_variantB word :
  In word VariantA.scienceKeywords -> In word VariantB.scienceKeywords.
Proof.
  unfold VariantA.scienceKeywords, VariantB.scienceKeywords. cbn [map].
  intros H. cbn [In] in *. tauto.
Qed.

Lemma scienceCount_mono_keywords (toLowerCase : jsstring -> jsstring)
    (fewer more : jsstring) :
  (forall word, In word VariantB.scienceKeywords ->
                includes (toLowerCase fewer) word = true ->
                includes (toLowerCase more) word = true) ->
  VariantA.scienceCount toLowerCase fewer <= VariantA.scienceCount toLowerCase more /\
  VariantB.scienceCount toLowerCase fewer <= VariantB.scienceCount toLowerCase more.
Proof.
  intros H.
  unfold VariantA.scienceCount, VariantB.scienceCount,
    VariantA.matchedKeywords, VariantB.matchedKeywords.
  split; apply Nat2Z.inj_le, filter_length_mono_In.
  - intros word Hin. apply H, variantA_keywords_in_variantB, Hin.
  - exact H.
Qed.

(** X6.  More keywords never hurt: under one draw, if every keyword of the
    list that one prompt matches is matched by another prompt too, both
    prompts agree on containing the lab item, and the other is at least as
    long, then the other scores at least as much, in both variants. *)
Theorem score_monotone_in_keywords
    (toLowerCase : jsstring -> jsstring) (rnd : Z)
    (fewer more labItem : jsstring) :
  (forall word, In word VariantB.scienceKeywords ->
                includes (toLowerCase fewer) word = true ->
                includes (toLowerCase more) word = true) ->
  includes (toLowerCase fewer) (toLowerCase labItem)
  = includes (toLowerCase more) (toLowerCase labItem) ->
  jslength fewer <= jslength more ->
  score (VariantA.evaluatePrompt toLowerCase rnd fewer labItem)
  <= score (VariantA.evaluatePrompt toLowerCase rnd more labItem) /\
  score (VariantB.evaluatePrompt toLowerCase rnd fewer labItem)
  <= score (VariantB.evaluatePrompt toLowerCase rnd more labItem).
Proof.
  intros Hsub Hm Hlen.
  destruct (scienceCount_mono_keywords toLowerCase fewer more Hsub) as [HA HB].
  unfold VariantA.evaluatePrompt, VariantB.evaluatePrompt, VariantA.subtotal,
    VariantB.subtotal, VariantA.mentionBonus, VariantA.mentionsLabItem,
    VariantB.usedLabItemWord, VariantB.lengthBonus.
  rewrite Hm.
  revert HA HB.
  generalize (VariantA.scienceCount toLowerCase fewer)
             (VariantA.scienceCount toLowerCase more)
             (VariantB.scienceCount toLowerCase fewer)
             (VariantB.scienceCount toLowerCase more).
  intros a1 a2 b1 b2 HA HB.
  destruct (includes (toLowerCase more) (toLowerCase labItem)); cbn [score].
  - split; [|lia]. unfold VariantA.keywordBonus, clamp. lia.
  - split; [unfold VariantA.keywordBonus, clamp; lia|].
    destruct (Z.ltb_spec 50 (jslength fewer)), (Z.ltb_spec 50 (jslength more)),
      (Z.ltb_spec 100 (jslength fewer)), (Z.ltb_spec 100 (jslength more));
      unfold VariantB.keywordBonus, clamp; lia.
Qed.

(** The first prompt is not a part of the second: only its keyword is. *)
Lemma score_monotone_in_keywords_witness :
  (forall word, In word VariantB.scienceKeywords ->
                includes (toLowerCaseAscii (str "a lab")) word = true ->
                includes (toLowerCaseAscii (str "lab flask")) word = true) /\
  includes (toLowerCaseAscii (str "a lab")) (toLowerCaseAscii (str "beaker"))
  = includes (toLowerCaseAscii (str "lab flask")) (toLowerCaseAscii (str "beaker")) /\
  jslength (str "a lab") <= jslength (str "lab flask") /\
  includes (str "lab flask") (str "a lab") = false /\
  score (VariantB.evaluatePrompt toLowerCaseAscii 6 (str "a lab") (str "beaker"))
  <= score (VariantB.evaluatePrompt toLowerCaseAscii 6 (str "lab flask") (str "beaker")).
Proof.
  assert (Hsub : forall word, In word VariantB.scienceKeywords ->
             includes (toLowerCaseAscii (str "a lab")) word = true ->
             includes (toLowerCaseAscii (str "lab flask")) word = true).
  { intros word Hin.
    unfold VariantB.scienceKeywords in Hin. cbn [map In] in Hin.
    repeat (destruct Hin as [<-|Hin]; [vm_compute; intros H; first [exact H | reflexivity]|]).
    contradiction. }
  split; [exact Hsub|]. split; [reflexivity|].
  split; [vm_compute; discriminate|]. split; [reflexivity|].
  apply (score_monotone_in_keywords toLowerCaseAscii 6
           (str "a lab") (str "lab flask") (str "beaker") Hsub);
    [reflexivity | vm_compute; discriminate].
Defined.

(** * Further properties of the handlers *)

(** Case analysis on what a run meets: whether a field converts, what a
    service answers. *)
Ltac on_conversion nts v tac :=
  split_conversion nts v; [|tac].

Ltac on_fields nts body tac :=
  on_conversion nts (bodyTeamName body) tac;
  on_conversion nts (bodyPrompt body) tac;
  on_conversion nts (bodyLabItem body) tac.

Lemma clipCopy_answersOnce numberToString world body :
  answersOnce (ClipCopy.handler numberToString world body).
Proof.
  unfold answersOnce, ClipCopy.handler, ClipCopy.generateImage,
    ClipCopy.evaluateWithCLIP, logTemplate, template.
  destruct (missingFields body); [settle_run|].
  on_fields numberToString body settle_run.
  destruct (imageService world (bodyPrompt body)) as [m|st tx|b64];
    [settle_run | settle_run |].
  step_run. destruct (clipService world b64 (bodyLabItem body)); settle_run.
Qed.

Lemma fixedCopy_answersOnce numberToString world body :
  answersOnce (FixedCopy.handler numberToString world body).
Proof.
  unfold answersOnce, FixedCopy.handler, FixedCopy.generateImage,
    FixedCopy.evaluateWithCLIP, logTemplate, template.
  destruct (missingFields body); [settle_run|].
  on_fields numberToString body settle_run.
  destruct (imageService world (bodyPrompt body)) as [m|st tx|b64];
    [settle_run | settle_run |].
  step_run. destruct (clipService world b64 (bodyLabItem body)); settle_run.
Qed.

Lemma penaltyCopy_answersOnce toLowerCase numberToString world body :
  answersOnce (PenaltyCopy.handler toLowerCase numberToString world body).
Proof.
  unfold answersOnce, PenaltyCopy.handler, PenaltyCopy.generateImage,
    PenaltyCopy.evaluatePrompt, callScorer, logTemplate, template.
  on_fields numberToString body settle_run.
  destruct (missingFields body); [settle_run|].
  destruct (imageService world (bodyPrompt body)) as [m|st tx|b64].
  - step_run. destruct (includes m (str "loading")); settle_run.
  - step_run. destruct (includes _ (str "loading")); settle_run.
  - step_run. destruct (bodyPrompt body); try settle_run.
    destruct (bodyLabItem body); settle_run.
Qed.

Lemma bulletproofCopy_answersOnce toLowerCase numberToString world hfConfigured body :
  answersOnce (BulletproofCopy.handler toLowerCase numberToString world hfConfigured body).
Proof.
  unfold answersOnce, BulletproofCopy.handler, BulletproofCopy.generateImage,
    BulletproofCopy.evaluatePrompt, callScorer, logTemplate, template.
  on_fields numberToString body settle_run.
  destruct (missingFields body); [settle_run|].
  destruct hfConfigured; [|settle_run].
  destruct (imageService world (bodyPrompt body)) as [m|st tx|b64].
  - step_run. destruct (includes m (str "loading")); settle_run.
  - step_run. destruct (includes _ (str "loading")); settle_run.
  - step_run. destruct (bodyPrompt body); try settle_run.
    destruct (bodyLabItem body); settle_run.
Qed.

Lemma cloudinaryCopy_answersOnce numberToString world body :
  cloudAnswersOnce (CloudinaryCopy.handler numberToString world body).
Proof.
  unfold cloudAnswersOnce, CloudinaryCopy.handler, CloudinaryCopy.generateImage,
    CloudinaryCopy.evaluateWithCLIP, CloudinaryCopy.uploadToCloudinary,
    CloudinaryCopy.logTemplate, CloudinaryCopy.template.
  destruct (missingFields body); [settle_run|].
  on_fields numberToString body settle_run.
  destruct (imageService (services world) (bodyPrompt body)) as [m|st tx|b64];
    [settle_run | settle_run |].
  step_run.
  destruct (uploadService world b64) as [m|url]; step_run;
    [|split_conversion numberToString url; step_run];
    (destruct (clipService (services world) b64 (bodyLabItem body))
       as [m'|st tx|result];
     [settle_run | settle_run |];
     step_run; destruct (ClipAvg.finalScore result); settle_run).
Qed.

(** X7.  Every copy of the handler answers each request exactly once, as
    the last thing it does, and never lets an error escape: whatever the
    body and whatever the services answer, the trace holds one response, at
    its end, which is the success object with status 200 or the failure
    object with status 400, 500 or 503. *)
Theorem handlers_answer_exactly_once
    (toLowerCase : jsstring -> jsstring) (numberToString : Num.number -> jsstring)
    (world : World) (cloud : CloudWorld) (hfConfigured : bool) (body : RequestBody) :
  answersOnce (ClipCopy.handler numberToString world body) /\
  answersOnce (PenaltyCopy.handler toLowerCase numberToString world body) /\
  answersOnce (FixedCopy.handler numberToString world body) /\
  answersOnce (BulletproofCopy.handler toLowerCase numberToString world hfConfigured body) /\
  cloudAnswersOnce (CloudinaryCopy.handler numberToString cloud body).
Proof.
  split; [apply clipCopy_answersOnce|].
  split; [apply penaltyCopy_answersOnce|].
  split; [apply fixedCopy_answersOnce|].
  split; [apply bulletproofCopy_answersOnce|].
  apply cloudinaryCopy_answersOnce.
Qed.

(** X8.  No copy retries or repeats a request to an external service, and
    each request waits for the one before it.  A request with a missing
    field, or with a field whose conversion to a string throws (or, in the
    copy that checks it, without an API key), makes no call.  Otherwise the
    image service is called once, and the upload (in the copy that has one)
    and the classifier are each called once, in this order, only when the
    image service has answered with an image, whose base64 text is what
    they are given. *)
Theorem external_calls_once_in_order
    (toLowerCase : jsstring -> jsstring) (numberToString : Num.number -> jsstring)
    (world : World) (upload : jsstring -> UploadOutcome) (hfConfigured : bool)
    (body : RequestBody) :
  let prompt := bodyPrompt body in
  let labItem := bodyLabItem body in
  let rejected := missingFields body || negb (fieldsConvert body) in
  externalCallsOf (ClipCopy.handler numberToString world body)
  = (if rejected then []
     else match imageService world prompt with
          | HttpOk b64 => [ImageRequest prompt; ClipRequest b64 labItem]
          | _ => [ImageRequest prompt]
          end) /\
  externalCallsOf (FixedCopy.handler numberToString world body)
  = (if rejected then []
     else match imageService world prompt with
          | HttpOk b64 => [ImageRequest prompt; ClipRequest b64 labItem]
          | _ => [ImageRequest prompt]
          end) /\
  externalCallsOf (PenaltyCopy.handler toLowerCase numberToString world body)
  = (if rejected then [] else [ImageRequest prompt]) /\
  externalCallsOf
    (BulletproofCopy.handler toLowerCase numberToString world hfConfigured body)
  = (if rejected || negb hfConfigured then [] else [ImageRequest prompt]) /\
  cloudExternalCallsOf
    (CloudinaryCopy.handler numberToString (mkCloudWorld world upload) body)
  = (if rejected then []
     else match imageService world prompt with
          | HttpOk b64 =>
              [CloudImageRequest prompt;
               CloudUploadRequest (str "data:image/png;base64," ++ b64);
               CloudClipRequest b64 labItem]
          | _ => [CloudImageRequest prompt]
          end).
Proof.
  cbv zeta.
  unfold externalCallsOf, cloudExternalCallsOf, fieldsConvert.
  split; [|split; [|split; [|split]]].
  - unfold ClipCopy.handler, ClipCopy.generateImage, ClipCopy.evaluateWithCLIP,
      logTemplate, template.
    destruct (missingFields body); [show_run|].
    on_fields numberToString body show_run.
    destruct (imageService world (bodyPrompt body)) as [m|st tx|b64];
      [show_run | show_run |].
    step_run. destruct (clipService world b64 (bodyLabItem body)); show_run.
  - unfold FixedCopy.handler, FixedCopy.generateImage, FixedCopy.evaluateWithCLIP,
      logTemplate, template.
    destruct (missingFields body); [show_run|].
    on_fields numberToString body show_run.
    destruct (imageService world (bodyPrompt body)) as [m|st tx|b64];
      [show_run | show_run |].
    step_run. destruct (clipService world b64 (bodyLabItem body)); show_run.
  - unfold PenaltyCopy.handler, PenaltyCopy.generateImage,
      PenaltyCopy.evaluatePrompt, callScorer, logTemplate, template.
    on_fields numberToString body
      ltac:(destruct (missingFields body); show_run).
    destruct (missingFields body); [show_run|].
    destruct (imageService world (bodyPrompt body)) as [m|st tx|b64].
    + step_run. destruct (includes m (str "loading")); show_run.
    + step_run. destruct (includes _ (str "loading")); show_run.
    + step_run. destruct (bodyPrompt body); try show_run.
      destruct (bodyLabItem body); show_run.
  - unfold BulletproofCopy.handler, BulletproofCopy.generateImage,
      BulletproofCopy.evaluatePrompt, callScorer, logTemplate, template.
    on_fields numberToString body
      ltac:(destruct (missingFields body); show_run).
    destruct (missingFields body); [show_run|].
    destruct hfConfigured; [|show_run].
    destruct (imageService world (bodyPrompt body)) as [m|st tx|b64].
    + step_run. destruct (includes m (str "loading")); show_run.
    + step_run. destruct (includes _ (str "loading")); show_run.
    + step_run. destruct (bodyPrompt body); try show_run.
      destruct (bodyLabItem body); show_run.
  - unfold CloudinaryCopy.handler, CloudinaryCopy.generateImage,
      CloudinaryCopy.evaluateWithCLIP, CloudinaryCopy.uploadToCloudinary,
      CloudinaryCopy.logTemplate, CloudinaryCopy.template.
    destruct (missingFields body); [show_run|].
    cbn [services uploadService].
    on_fields numberToString body show_run.
    destruct (imageService world (bodyPrompt body)) as [m|st tx|b64];
      [show_run | show_run |].
    step_run.
    destruct (upload b64) as [m|url]; step_run;
      [|split_conversion numberToString url; step_run];
      (destruct (clipService world b64 (bodyLabItem body)) as [m'|st tx|result];
       [show_run | show_run |];
       step_run; destruct (ClipAvg.finalScore result); show_run).
Qed.

Lemma includes_after_failure_prefix (t : jsstring) :
  includes (str "Image generation failed: " ++ t) (str "loading")
  = includes t (str "loading").
Proof. reflexivity. Qed.

Lemma orElse_app_str (c : ascii) (s : string) (t fallback : jsstring) :
  orElse (str (String c s) ++ t) fallback = str (String c s) ++ t.
Proof. reflexivity. Qed.

(** X9.  When the image service answers with an HTTP error to a request
    whose fields are present and convert to strings, every copy answers 500
    with a message built from the status.  The copies that score the prompt
    leave the error text of the service out of the message, and they look
    for the word "loading" in that message only: as long as the status,
    written out, does not contain it, they answer 500 and never their 503
    "model loading" response, whatever the error text says. *)
Theorem image_http_error_is_500
    (toLowerCase : jsstring -> jsstring) (numberToString : Num.number -> jsstring)
    (world : World) (upload : jsstring -> UploadOutcome)
    (body : RequestBody) (status : Z) (errorText : jsstring) :
  missingFields body = false ->
  fieldsConvert body = true ->
  imageService world (bodyPrompt body) = HttpNotOk status errorText ->
  includes (statusText numberToString status) (str "loading") = false ->
  responsesOf (ClipCopy.handler numberToString world body)
  = [Respond 500
       (FailureBody (str "Image generation failed: " ++ statusText numberToString status
                     ++ str " - " ++ errorText))] /\
  responsesOf (FixedCopy.handler numberToString world body)
  = [Respond 500
       (FailureBody (str "Hugging Face error: " ++ statusText numberToString status
                     ++ str " - " ++ errorText))] /\
  responsesOf (PenaltyCopy.handler toLowerCase numberToString world body)
  = [Respond 500
       (FailureBody (str "Image generation failed: " ++ statusText numberToString status))] /\
  responsesOf (BulletproofCopy.handler toLowerCase numberToString world true body)
  = [Respond 500
       (FailureBody (str "Image generation failed: " ++ statusText numberToString status))] /\
  cloudResponsesOf (CloudinaryCopy.handler numberToString (mkCloudWorld world upload) body)
  = [CloudRespond 500
       (CloudFailure (str "Hugging Face error: " ++ statusText numberToString status
                      ++ str " - " ++ errorText))].
Proof.
  intros Hm Hc Hi Hl.
  unfold responsesOf, cloudResponsesOf.
  unfold ClipCopy.handler, ClipCopy.generateImage, FixedCopy.handler,
    FixedCopy.generateImage, PenaltyCopy.handler, PenaltyCopy.generateImage,
    BulletproofCopy.handler, BulletproofCopy.generateImage,
    CloudinaryCopy.handler, CloudinaryCopy.generateImage,
    CloudinaryCopy.logTemplate, CloudinaryCopy.template, logTemplate, template.
  rewrite Hm. cbn [services]. rewrite Hi.
  use_conversions numberToString body Hc.
  split; [|split; [|split; [|split]]].
  - step_run. now rewrite orElse_app_str.
  - step_run. now rewrite orElse_app_str.
  - step_run. rewrite includes_after_failure_prefix, Hl.
    step_run. now rewrite orElse_app_str.
  - step_run. rewrite includes_after_failure_prefix, Hl.
    step_run. now rewrite orElse_app_str.
  - step_run. now rewrite orElse_app_str.
Qed.

Lemma image_http_error_is_500_witness :
  missingFields sampleBody = false /\
  fieldsConvert sampleBody = true /\
  imageService loadingWorld (bodyPrompt sampleBody)
  = HttpNotOk 503 (str "Model is currently loading") /\
  includes (statusText sampleNumberToString 503) (str "loading") = false /\
  responsesOf (PenaltyCopy.handler toLowerCaseAscii sampleNumberToString loadingWorld
                 sampleBody)
  = [Respond 500 (FailureBody (str "Image generation failed: 503"))].
Proof.
  split; [reflexivity|]. split; [reflexivity|]. split; [reflexivity|].
  split; [reflexivity|].
  apply (image_http_error_is_500 toLowerCaseAscii sampleNumberToString loadingWorld
           failingUpload sampleBody 503 (str "Model is currently loading")
           eq_refl eq_refl eq_refl eq_refl).
Defined.

(** X10.  When the request to the image service itself fails, for a body
    whose fields are present and convert to strings, the copies with the
    classifier answer 500 with the message of the error, or with
    "An error occurred" when that message is empty.  The copies that score
    the prompt answer 503 with their "model loading" text when the message
    contains "loading", and 500 with the message (or their fallback text)
    otherwise. *)
Theorem image_fetch_rejection
    (toLowerCase : jsstring -> jsstring) (numberToString : Num.number -> jsstring)
    (world : World) (upload : jsstring -> UploadOutcome)
    (body : RequestBody) (message : jsstring) :
  missingFields body = false ->
  fieldsConvert body = true ->
  imageService world (bodyPrompt body) = FetchRejected message ->
  responsesOf (ClipCopy.handler numberToString world body)
  = [Respond 500 (FailureBody (orElse message (str "An error occurred")))] /\
  responsesOf (FixedCopy.handler numberToString world body)
  = [Respond 500 (FailureBody (orElse message (str "An error occurred")))] /\
  cloudResponsesOf (CloudinaryCopy.handler numberToString (mkCloudWorld world upload) body)
  = [CloudRespond 500 (CloudFailure (orElse message (str "An error occurred")))] /\
  responsesOf (PenaltyCopy.handler toLowerCase numberToString world body)
  = (if includes message (str "loading")
     then [Respond 503 (FailureBody (str "Model loading, wait 30 seconds"))]
     else [Respond 500 (FailureBody (orElse message (str "Server error")))]) /\
  responsesOf (BulletproofCopy.handler toLowerCase numberToString world true body)
  = (if includes message (str "loading")
     then [Respond 503
             (FailureBody (str "Model is loading, please wait 30 seconds and try again"))]
     else [Respond 500 (FailureBody (orElse message (str "Server error occurred")))]).
Proof.
  intros Hm Hc Hi.
  unfold responsesOf, cloudResponsesOf.
  unfold ClipCopy.handler, ClipCopy.generateImage, FixedCopy.handler,
    FixedCopy.generateImage, PenaltyCopy.handler, PenaltyCopy.generateImage,
    BulletproofCopy.handler, BulletproofCopy.generateImage,
    CloudinaryCopy.handler, CloudinaryCopy.generateImage,
    CloudinaryCopy.logTemplate, CloudinaryCopy.template, logTemplate, template.
  rewrite Hm. cbn [services]. rewrite Hi.
  use_conversions numberToString body Hc.
  split; [show_run|]. split; [show_run|]. split; [show_run|].
  split; step_run; destruct (includes message (str "loading")); show_run.
Qed.

Lemma image_fetch_rejection_witness :
  missingFields sampleBody = false /\
  fieldsConvert sampleBody = true /\
  imageService rejectingWorld (bodyPrompt sampleBody)
  = FetchRejected (str "the model is loading") /\
  responsesOf (PenaltyCopy.handler toLowerCaseAscii sampleNumberToString rejectingWorld
                 sampleBody)
  = [Respond 503 (FailureBody (str "Model loading, wait 30 seconds"))].
Proof.
  split; [reflexivity|]. split; [reflexivity|]. split; [reflexivity|].
  apply (image_fetch_rejection toLowerCaseAscii sampleNumberToString rejectingWorld
           failingUpload sampleBody (str "the model is loading")
           eq_refl eq_refl eq_refl).
Defined.

(** X11.  The presence check lets through a prompt or a lab item that is
    truthy but not a string.  In the copies that score the prompt such a
    request, when its fields convert to strings for the console, first
    costs a call of the image service, and only then fails in the scorer:
    the answer is 500 with the message of the TypeError, about the prompt
    when the prompt is not a string and about the lab item otherwise. *)
Theorem non_string_field_is_500_after_image
    (toLowerCase : jsstring -> jsstring) (numberToString : Num.number -> jsstring)
    (world : World) (body : RequestBody) (b64 : jsstring) :
  missingFields body = false ->
  fieldsConvert body = true ->
  imageService world (bodyPrompt body) = HttpOk b64 ->
  isString (bodyPrompt body) && isString (bodyLabItem body) = false ->
  let message :=
    if isString (bodyPrompt body)
    then str "labItem.toLowerCase is not a function"
    else str "prompt.toLowerCase is not a function" in
  (responsesOf (PenaltyCopy.handler toLowerCase numberToString world body)
   = [Respond 500 (FailureBody message)] /\
   externalCallsOf (PenaltyCopy.handler toLowerCase numberToString world body)
   = [ImageRequest (bodyPrompt body)]) /\
  (responsesOf (BulletproofCopy.handler toLowerCase numberToString world true body)
   = [Respond 500 (FailureBody message)] /\
   externalCallsOf (BulletproofCopy.handler toLowerCase numberToString world true body)
   = [ImageRequest (bodyPrompt body)]).
Proof.
  intros Hm Hc Hi Hs. cbv zeta.
  unfold responsesOf, externalCallsOf.
  unfold PenaltyCopy.handler, PenaltyCopy.generateImage, PenaltyCopy.evaluatePrompt,
    BulletproofCopy.handler, BulletproofCopy.generateImage,
    BulletproofCopy.evaluatePrompt, callScorer, logTemplate, template.
  rewrite Hm, Hi.
  use_conversions numberToString body Hc.
  destruct (bodyPrompt body); cbn [isString andb] in Hs |- *;
    try (repeat split; show_run).
  destruct (bodyLabItem body); cbn [isString] in Hs; try discriminate Hs;
    repeat split; show_run.
Qed.

Lemma non_string_field_is_500_after_image_witness :
  missingFields (mkRequestBody (JNumber (Num.ofZ 7)) (JString (str "beaker"))
                   (JString (str "Team 1"))) = false /\
  fieldsConvert (mkRequestBody (JNumber (Num.ofZ 7)) (JString (str "beaker"))
                   (JString (str "Team 1"))) = true /\
  imageService sampleWorld (JNumber (Num.ofZ 7)) = HttpOk (str "aW1hZ2U=") /\
  isString (JNumber (Num.ofZ 7)) && isString (JString (str "beaker")) = false /\
  responsesOf
    (PenaltyCopy.handler toLowerCaseAscii sampleNumberToString sampleWorld
       (mkRequestBody (JNumber (Num.ofZ 7)) (JString (str "beaker"))
          (JString (str "Team 1"))))
  = [Respond 500 (FailureBody (str "prompt.toLowerCase is not a function"))].
Proof.
  split; [reflexivity|]. split; [reflexivity|]. split; [reflexivity|].
  split; [reflexivity|].
  apply (non_string_field_is_500_after_image toLowerCaseAscii sampleNumberToString
           sampleWorld
           (mkRequestBody (JNumber (Num.ofZ 7)) (JString (str "beaker"))
              (JString (str "Team 1")))
           (str "aW1hZ2U=") eq_refl eq_refl eq_refl eq_refl).
Defined.

(** X12.  A request with a string prompt, a string lab item and a team name
    that converts to a string, for which the image service returns an
    image, is answered 200 by the copies that score the prompt: the image
    comes back as a PNG data URL of the base64 text, the score and the
    explanation are those of [evaluatePrompt] on the prompt and the lab
    item (Variant B in the penalty copy, Variant A in the other), and the
    team name and the lab item are echoed. *)
Theorem prompt_copies_success
    (toLowerCase : jsstring -> jsstring) (numberToString : Num.number -> jsstring)
    (world : World) (body : RequestBody) (prompt labItem b64 : jsstring) :
  missingFields body = false ->
  bodyPrompt body = JString prompt ->
  bodyLabItem body = JString labItem ->
  converts (bodyTeamName body) = true ->
  imageService world (JString prompt) = HttpOk b64 ->
  let a := VariantA.evaluatePrompt toLowerCase (randomDraw world) prompt labItem in
  let b := VariantB.evaluatePrompt toLowerCase (randomDraw world) prompt labItem in
  responsesOf (PenaltyCopy.handler toLowerCase numberToString world body)
  = [Respond 200
       (SuccessBody (str "data:image/png;base64," ++ b64) (Num.ofZ (score b))
          (explanation b) (bodyTeamName body) (JString labItem)
          (str "Stable Diffusion XL"))] /\
  responsesOf (BulletproofCopy.handler toLowerCase numberToString world true body)
  = [Respond 200
       (SuccessBody (str "data:image/png;base64," ++ b64) (Num.ofZ (score a))
          (explanation a) (bodyTeamName body) (JString labItem)
          (str "Stable Diffusion XL"))].
Proof.
  intros Hm Hp Hl Ht Hi. cbv zeta.
  unfold responsesOf.
  unfold PenaltyCopy.handler, PenaltyCopy.generateImage, PenaltyCopy.evaluatePrompt,
    BulletproofCopy.handler, BulletproofCopy.generateImage,
    BulletproofCopy.evaluatePrompt, callScorer, logTemplate, template.
  destruct (ToString_converts numberToString _ Ht) as [teamText Et].
  rewrite Hm, Hp, Hl, Hi, Et. split; show_run.
Qed.

Lemma prompt_copies_success_witness :
  missingFields sampleBody = false /\
  bodyPrompt sampleBody = JString (str "lab test flask glass vessel") /\
  bodyLabItem sampleBody = JString (str "beaker") /\
  converts (bodyTeamName sampleBody) = true /\
  imageService sampleWorld (JString (str "lab test flask glass vessel"))
  = HttpOk (str "aW1hZ2U=") /\
  responsesOf (PenaltyCopy.handler toLowerCaseAscii sampleNumberToString sampleWorld
                 sampleBody)
  = [Respond 200
       (SuccessBody (str "data:image/png;base64,aW1hZ2U=") (Num.ofZ 70)
          VariantB.goodText (JString (str "Team 1")) (JString (str "beaker"))
          (str "Stable Diffusion XL"))].
Proof.
  split; [reflexivity|]. split; [reflexivity|]. split; [reflexivity|].
  split; [reflexivity|]. split; [reflexivity|].
  apply (prompt_copies_success toLowerCaseAscii sampleNumberToString sampleWorld
           sampleBody (str "lab test flask glass vessel") (str "beaker")
           (str "aW1hZ2U=") eq_refl eq_refl eq_refl eq_refl eq_refl).
Defined.

(** X13.  In the two copies that call the classifier right after the image
    service, for a body whose fields are present and convert to strings,
    once the image is there the answer of the classifier decides the
    response: 200 with the derived score and its explanation, which holds
    the text of the lab item, when it answers, 500 with
    "CLIP evaluation failed: " and the status when it answers with an HTTP
    error, 500 with the message of the error when the request fails. *)
Theorem clip_outcome_decides_response
    (numberToString : Num.number -> jsstring) (world : World)
    (body : RequestBody) (b64 labItemText : jsstring) :
  missingFields body = false ->
  fieldsConvert body = true ->
  ToString numberToString (bodyLabItem body) = Returned labItemText ->
  imageService world (bodyPrompt body) = HttpOk b64 ->
  let labItem := bodyLabItem body in
  let teamName := bodyTeamName body in
  let expected :=
    match clipService world b64 labItem with
    | HttpOk result =>
        [Respond 200
           (SuccessBody (str "data:image/png;base64," ++ b64) (ClipTop.score result)
              (ClipCopy.explain numberToString labItemText result) teamName labItem
              (str "Stable Diffusion XL + CLIP"))]
    | HttpNotOk status _ =>
        [Respond 500
           (FailureBody (str "CLIP evaluation failed: "
                         ++ statusText numberToString status))]
    | FetchRejected message =>
        [Respond 500 (FailureBody (orElse message (str "An error occurred")))]
    end in
  responsesOf (ClipCopy.handler numberToString world body) = expected /\
  responsesOf (FixedCopy.handler numberToString world body) = expected.
Proof.
  intros Hm Hc Hl Hi. cbv zeta.
  unfold responsesOf.
  unfold ClipCopy.handler, ClipCopy.generateImage, ClipCopy.evaluateWithCLIP,
    FixedCopy.handler, FixedCopy.generateImage, FixedCopy.evaluateWithCLIP,
    logTemplate, template.
  rewrite Hm, Hi, Hl.
  apply fieldsConvert_spec in Hc as (C1 & C2 & _).
  destruct (ToString_converts numberToString _ C1) as [teamText E1].
  destruct (ToString_converts numberToString _ C2) as [promptText E2].
  rewrite ?E1, ?E2.
  step_run.
  destruct (clipService world b64 (bodyLabItem body)) as [m|st tx|result];
    split; show_run.
Qed.

Lemma clip_outcome_decides_response_witness :
  missingFields sampleBody = false /\
  fieldsConvert sampleBody = true /\
  ToString sampleNumberToString (bodyLabItem sampleBody) = Returned (str "beaker") /\
  imageService sampleWorld (bodyPrompt sampleBody) = HttpOk (str "aW1hZ2U=") /\
  responsesOf (ClipCopy.handler sampleNumberToString sampleWorld sampleBody)
  = [Respond 200
       (SuccessBody (str "data:image/png;base64,aW1hZ2U=") (Num.ofZ 50)
          (str "AI evaluation completed with moderate confidence. The beaker may be present but results are inconclusive.")
          (JString (str "Team 1")) (JString (str "beaker"))
          (str "Stable Diffusion XL + CLIP"))].
Proof.
  split; [reflexivity|]. split; [reflexivity|]. split; [reflexivity|].
  split; [reflexivity|].
  apply (clip_outcome_decides_response sampleNumberToString sampleWorld sampleBody
           (str "aW1hZ2U=") (str "beaker") eq_refl eq_refl eq_refl eq_refl).
Defined.

(** X14.  In the copy with the upload, for a body whose fields are present
    and convert to strings: the image URL of the success response is the
    PNG data URL of the image when the upload fails, or when the URL it
    answers does not convert to a string for the console line inside the
    [try]; otherwise it is the [secure_url] property of the upload's answer
    as it is, also when that property is absent ([undefined]).  The outcome
    of the upload never changes the rest: the classifier is called on the
    image and decides the response, which is 200 with the averaged score
    when the answer can be read, and 500 when the classifier fails or its
    answer is [null]. *)
Theorem cloudinary_upload_fallback
    (numberToString : Num.number -> jsstring) (world : World)
    (upload : jsstring -> UploadOutcome) (body : RequestBody)
    (b64 labItemText : jsstring) :
  missingFields body = false ->
  fieldsConvert body = true ->
  ToString numberToString (bodyLabItem body) = Returned labItemText ->
  imageService world (bodyPrompt body) = HttpOk b64 ->
  let labItem := bodyLabItem body in
  let teamName := bodyTeamName body in
  let imageUrl :=
    match upload b64 with
    | UploadRejected _ => JString (str "data:image/png;base64," ++ b64)
    | UploadAnswered secure_url =>
        if converts secure_url then secure_url
        else JString (str "data:image/png;base64," ++ b64)
    end in
  cloudResponsesOf
    (CloudinaryCopy.handler numberToString (mkCloudWorld world upload) body)
  = match clipService world b64 labItem with
    | HttpOk result =>
        match ClipAvg.finalScore result with
        | Some finalScore =>
            [CloudRespond 200
               (CloudSuccess imageUrl finalScore
                  (CloudinaryCopy.explain numberToString labItemText finalScore result)
                  teamName labItem (str "Stable Diffusion XL + CLIP"))]
        | None => [CloudRespond 500 (CloudFailure ClipAvg.readError)]
        end
    | HttpNotOk status _ =>
        [CloudRespond 500
           (CloudFailure (str "CLIP evaluation failed: "
                          ++ statusText numberToString status))]
    | FetchRejected message =>
        [CloudRespond 500 (CloudFailure (orElse message (str "An error occurred")))]
    end.
Proof.
  intros Hm Hc Hl Hi. cbv zeta.
  unfold cloudResponsesOf.
  unfold CloudinaryCopy.handler, CloudinaryCopy.generateImage,
    CloudinaryCopy.evaluateWithCLIP, CloudinaryCopy.uploadToCloudinary,
    CloudinaryCopy.logTemplate, CloudinaryCopy.template.
  rewrite Hm. cbn [services uploadService]. rewrite Hi, Hl.
  apply fieldsConvert_spec in Hc as (C1 & C2 & _).
  destruct (ToString_converts numberToString _ C1) as [teamText E1].
  destruct (ToString_converts numberToString _ C2) as [promptText E2].
  rewrite ?E1, ?E2.
  step_run.
  destruct (upload b64) as [m|url]; step_run;
    [|split_conversion numberToString url; step_run];
    (destruct (clipService world b64 (bodyLabItem body)) as [m'|st tx|result];
     [show_run | show_run |];
     step_run; destruct (ClipAvg.finalScore result); show_run).
Qed.

Lemma cloudinary_upload_fallback_witness :
  missingFields sampleBody = false /\
  fieldsConvert sampleBody = true /\
  ToString sampleNumberToString (bodyLabItem sampleBody) = Returned (str "beaker") /\
  imageService sampleWorld (bodyPrompt sampleBody) = HttpOk (str "aW1hZ2U=") /\
  cloudResponsesOf
    (CloudinaryCopy.handler sampleNumberToString
       (mkCloudWorld sampleWorld failingUpload) sampleBody)
  = [CloudRespond 200
       (CloudSuccess (JString (str "data:image/png;base64,aW1hZ2U=")) Num.zero
          (str "The beaker is not clearly visible or present in the image (confidence: 0%). The image may be more artistic or abstract rather than showing realistic laboratory equipment.")
          (JString (str "Team 1")) (JString (str "beaker"))
          (str "Stable Diffusion XL + CLIP"))].
Proof.
  split; [reflexivity|]. split; [reflexivity|]. split; [reflexivity|].
  split; [reflexivity|].
  apply (cloudinary_upload_fallback sampleNumberToString sampleWorld failingUpload
           sampleBody (str "aW1hZ2U=") (str "beaker")
           eq_refl eq_refl eq_refl eq_refl).
Defined.

(** X15.  In the copy that checks its configuration, a request with all
    three fields, which convert to strings, is answered 500
    "Backend not configured properly" when the API key is not set, after
    console lines only: the image service is not called. *)
Theorem missing_api_key_is_500_before_calls
    (toLowerCase : jsstring -> jsstring) (numberToString : Num.number -> jsstring)
    (world : World) (body : RequestBody) :
  missingFields body = false ->
  fieldsConvert body = true ->
  BulletproofCopy.handler toLowerCase numberToString world false body
  = (repeat ConsoleLine 6
       ++ [Respond 500 (FailureBody (str "Backend not configured properly"))],
     Returned tt).
Proof.
  intros Hm Hc. unfold BulletproofCopy.handler, logTemplate, template.
  rewrite Hm. use_conversions numberToString body Hc. reflexivity.
Qed.

Lemma missing_api_key_is_500_before_calls_witness :
  missingFields sampleBody = false /\
  fieldsConvert sampleBody = true /\
  externalCallsOf
    (BulletproofCopy.handler toLowerCaseAscii sampleNumberToString sampleWorld false
       sampleBody)
  = [].
Proof.
  split; [reflexivity|]. split; [reflexivity|].
  rewrite (missing_api_key_is_500_before_calls toLowerCaseAscii sampleNumberToString
             sampleWorld sampleBody eq_refl eq_refl).
  reflexivity.
Defined.

(** X16.  The copy "FIXED VERSION" and the copy with the upload reject a
    request with a missing (absent or falsy) prompt, lab item or team name
    like the others: the whole run is the one response 400 with
    [success: false]; no console line is written and no service is
    called. *)
Theorem missing_field_rejected_in_other_copies
    (numberToString : Num.number -> jsstring) (world : World) (cloud : CloudWorld)
    (body : RequestBody) :
  missingFields body = true ->
  FixedCopy.handler numberToString world body
  = ([Respond 400
        (FailureBody (str "Missing required fields: prompt, labItem, or teamName"))],
     Returned tt) /\
  CloudinaryCopy.handler numberToString cloud body
  = ([CloudRespond 400
        (CloudFailure (str "Missing required fields: prompt, labItem, or teamName"))],
     Returned tt).
Proof.
  intros Hm. unfold FixedCopy.handler, CloudinaryCopy.handler. rewrite Hm.
  split; reflexivity.
Qed.

Lemma missing_field_rejected_in_other_copies_witness :
  missingFields (mkRequestBody (JString (str "a flask")) JNull (JString (str "Team 1")))
  = true /\
  CloudinaryCopy.handler sampleNumberToString (mkCloudWorld sampleWorld failingUpload)
    (mkRequestBody (JString (str "a flask")) JNull (JString (str "Team 1")))
  = ([CloudRespond 400
        (CloudFailure (str "Missing required fields: prompt, labItem, or teamName"))],
     Returned tt).
Proof.
  split; [reflexivity|].
  apply (missing_field_rejected_in_other_copies sampleNumberToString sampleWorld
           (mkCloudWorld sampleWorld failingUpload)
           (mkRequestBody (JString (str "a flask")) JNull (JString (str "Team 1")))).
  reflexivity.
Defined.

(** * Further properties of the CLIP scorers *)

(** X17.  In the copies with one top score the derived score is always a
    number of [0,100], never NaN, as long as no confidence of the answer is
    infinite: a confidence that is NaN or missing counts as 0, and the
    clamp bounds everything else, also a product that overflows. *)
Theorem clipTop_score_in_range (result : ClipResult) :
  noInfinity result = true ->
  Num.isNaN (ClipTop.score result) = false /\
  inPercentRange (ClipTop.score result) = true.
Proof.
  intros H.
  assert (Hn : Num.isNaN (ClipTop.score result) = false).
  { unfold ClipTop.score.
    destruct (ClipTop.isNonEmptyArray result); [|reflexivity].
    rewrite (proj1 (clampNumber_range _)).
    apply round_not_nan, mul_not_nan_finite; [|reflexivity].
    apply sub_finite_not_nan.
    - apply scoreOrZero_finite, H.
    - apply mul_finite_not_nan; [apply scoreOrZero_finite, H | reflexivity]. }
  split; [exact Hn|].
  unfold ClipTop.score in *.
  destruct (ClipTop.isNonEmptyArray result); [|reflexivity].
  match goal with
  | |- inPercentRange (clampNumber ?y) = true =>
      destruct (clampNumber_range y) as [Hc Hr]; rewrite Hc in Hn;
      rewrite Hn in Hr; exact Hr
  end.
Qed.

Lemma clipTop_score_in_range_witness :
  noInfinity (ResultArray [entryOf 85 100; mkClipEntry [] (Some S754_nan);
                           mkClipEntry [] None; entryOf 7 100]) = true /\
  inPercentRange
    (ClipTop.score (ResultArray [entryOf 85 100; mkClipEntry [] (Some S754_nan);
                                 mkClipEntry [] None; entryOf 7 100])) = true.
Proof.
  split; [reflexivity|].
  apply (clipTop_score_in_range
           (ResultArray [entryOf 85 100; mkClipEntry [] (Some S754_nan);
                         mkClipEntry [] None; entryOf 7 100])).
  reflexivity.
Defined.

Lemma sub_zero_r x : Num.sub x Num.zero = x.
Proof. destruct x as [[]|[]| |s m e]; reflexivity. Qed.

Lemma scoreOrZero_missing result i :
  (List.length (entriesOf result) <= i)%nat -> scoreOrZero result i = Num.zero.
Proof.
  intros H. unfold scoreOrZero.
  now rewrite (proj2 (nth_error_None _ _) H).
Qed.

(** X18.  When the answer has at most three entries, the entry of the
    "unrelated" label (the fourth, or the fifth in the averaged copy) is
    missing and counts as 0, so nothing is subtracted: the score is the
    top confidence, or the average of the first three, times 100, rounded
    and clamped.  In the averaged copy this holds of every answer whose
    entries can be read, so of every array; on [null], which has no
    entries, the read throws and there is no score. *)
Theorem clip_missing_unrelated_entry (result : ClipResult) :
  (List.length (entriesOf result) <= 3)%nat ->
  ClipTop.score result
  = (if ClipTop.isNonEmptyArray result
     then clampNumber (Num.round (Num.mul (ClipTop.labItemScore result) (Num.ofZ 100)))
     else Num.ofZ 50) /\
  ClipAvg.finalScore result
  = (if ClipAvg.readable result
     then Some (clampNumber
                  (Num.round (Num.mul (ClipAvg.avgLabScore result) (Num.ofZ 100))))
     else None).
Proof.
  intros H.
  assert (Ha : ClipAvg.finalScore result
               = (if ClipAvg.readable result
                  then Some (clampNumber
                               (Num.round
                                  (Num.mul (ClipAvg.avgLabScore result) (Num.ofZ 100))))
                  else None)).
  { unfold ClipAvg.finalScore, ClipAvg.unrelatedScore.
    rewrite scoreOrZero_missing by lia.
    change (Num.mul Num.zero (Num.decimal 1 2)) with Num.zero.
    now rewrite sub_zero_r. }
  split; [|exact Ha].
  unfold ClipTop.score, ClipTop.unrelatedScore.
  rewrite scoreOrZero_missing by lia.
  change (Num.mul Num.zero (Num.decimal 3 10)) with Num.zero.
  now rewrite sub_zero_r.
Qed.

Lemma clip_missing_unrelated_entry_witness :
  (List.length (entriesOf (ResultArray [entryOf 85 100; entryOf 5 100])) <= 3)%nat /\
  ClipTop.score (ResultArray [entryOf 85 100; entryOf 5 100]) = Num.ofZ 85 /\
  ClipAvg.finalScore (ResultArray [entryOf 85 100; entryOf 5 100]) = Some (Num.ofZ 30).
Proof.
  split; [cbn; lia|].
  destruct (clip_missing_unrelated_entry (ResultArray [entryOf 85 100; entryOf 5 100])
              ltac:(cbn; lia)) as (Ht & Ha).
  split; [rewrite Ht | rewrite Ha]; vm_compute; reflexivity.
Defined.
